(** * Soumik's Lifestyle: the state container of [src/Website.jsx]

    A shallow embedding of the React component [SoumikLifestyle]: its eight
    pieces of state, the mutators that update them, the derived aggregates,
    the 7-day chart projection and the export / import of the whole state.

    Conventions of the embedding.
    - A React state setter called with an updater function applies that
      function once to the current value; a mutator is therefore a function
      from the state before the call to the state after it.
    - Readings of the environment ([Date.now()], [new Date().toISOString()],
      [new Date().toDateString()]) are inputs of the mutator, gathered in a
      [Clock] record.
    - Ids and the reward counter are JavaScript numbers holding integers and
      are modelled by [Z].  The program adds the reward points in binary64,
      which agrees with [Z] as long as the counter stays within the safe
      integers ([safeInteger], at most 2^53 - 1 in absolute value); beyond
      them binary64 rounds (2^53 + 5 is 2^53 + 4).  The statements that
      give the value of the counter after a call carry that bound as a
      hypothesis.  Amounts and
      durations come out of [parseFloat]; their arithmetic is a parameter
      (class [Number]) whose instance for the running program is IEEE
      binary64 ([binary64_Number]).
    - The import path works on untyped JSON values; it is embedded separately
      in module [Snapshot].
    - The copy of each piece of state that [useLocalStorage] writes to
      [window.localStorage] is not read again during a session and is left
      out. *)

From Stdlib Require Import List ZArith Bool String Ascii Lia Floats Sorting.Sorted.
From Stdlib Require Import Sorting.Permutation.
Import ListNotations.
Local Open Scope string_scope.
Local Open Scope list_scope.
Local Open Scope Z_scope.

Set Implicit Arguments.
Unset Strict Implicit.

(** ** JavaScript basics *)

(** A property that holds a value of type [A], holds [null], or is absent
    from the object ([undefined]). *)
Inductive optional (A : Type) : Type :=
| Undefined
| Null
| Value (a : A).
Arguments Undefined {A}.
Arguments Null {A}.

(** [o || []] for an array-valued property: an array, even an empty one, is
    truthy; [undefined] and [null] are not. *)
Definition orEmpty {A : Type} (o : optional (list A)) : list A :=
  match o with
  | Value l => l
  | _ => []
  end.

(** [dates.includes(x)] on an array of strings. *)
Definition includes (x : string) (dates : list string) : bool :=
  existsb (String.eqb x) dates.

(** [o?.includes(x)] used as a condition: [undefined] when [o] is nullish,
    which is falsy. *)
Definition optIncludes (x : string) (o : optional (list string)) : bool :=
  match o with
  | Value l => includes x l
  | _ => false
  end.

(** The arithmetic of the numbers produced by [parseFloat]. *)
Class Number (N : Type) : Type := {
  num_zero : N;
  num_add : N -> N -> N;
  num_sub : N -> N -> N
}.

(** The arithmetic the program runs with: IEEE 754 binary64. *)
#[export] Instance binary64_Number : Number float := {|
  num_zero := 0%float;
  num_add := PrimFloat.add;
  num_sub := PrimFloat.sub
|}.

(** Exact integer arithmetic (whole amounts, no rounding). *)
#[export] Instance exact_Number : Number Z := {|
  num_zero := 0;
  num_add := Z.add;
  num_sub := Z.sub
|}.

(** One reading of the environment's clock, as the three forms the program
    asks for. *)
Record Clock : Type := mkClock {
  dateNow : Z;            (* Date.now() *)
  isoString : string;     (* new Date().toISOString() *)
  dateString : string     (* new Date().toDateString() *)
}.

(** ** Entities *)

Record Habit : Type := mkHabit {
  h_id : Z;
  h_name : string;
  h_completedDates : optional (list string);
  h_createdAt : string
}.

Record Todo : Type := mkTodo {
  t_id : Z;
  t_task : string;
  t_completed : bool;
  t_photo : optional string;
  t_createdAt : string
}.

Record Expense (N : Type) : Type := mkExpense {
  e_id : Z;
  e_description : string;
  e_amount : N;
  e_category : string;
  e_date : string
}.

Record Note : Type := mkNote {
  n_id : Z;
  n_title : string;
  n_content : string;
  n_createdAt : string
}.

Record Memory : Type := mkMemory {
  m_id : Z;
  m_title : string;
  m_photo : string;
  m_createdAt : string
}.

Record Loan (N : Type) : Type := mkLoan {
  l_id : Z;
  l_personName : string;
  l_amount : N;
  l_note : string;
  l_returned : bool;
  l_dateGiven : string;
  l_dateReturned : optional string
}.

Record SleepSession (N : Type) : Type := mkSleepSession {
  s_id : Z;
  s_duration : N;
  s_isAfternoon : bool;
  s_date : string
}.

(** [item.id], read by [deleteItem] on the items of any collection. *)
Class HasId (A : Type) : Type := getId : A -> Z.
#[export] Instance Habit_HasId : HasId Habit := h_id.
#[export] Instance Todo_HasId : HasId Todo := t_id.
#[export] Instance Expense_HasId (N : Type) : HasId (Expense N) := @e_id N.
#[export] Instance Note_HasId : HasId Note := n_id.
#[export] Instance Memory_HasId : HasId Memory := m_id.
#[export] Instance Loan_HasId (N : Type) : HasId (Loan N) := @l_id N.
#[export] Instance SleepSession_HasId (N : Type) : HasId (SleepSession N) := @s_id N.

(** ** The state of the component *)

Record State (N : Type) : Type := mkState {
  habits : list Habit;
  todos : list Todo;
  expenses : list (Expense N);
  notes : list Note;
  memories : list Memory;
  loans : list (Loan N);
  rewards : Z;
  sleepSessions : list (SleepSession N)
}.

(** The defaults passed to [useLocalStorage]. *)
Definition initialState (N : Type) : State N :=
  mkState [] [] [] [] [] [] 0 [].

Section Mutators.
Context {N : Type}.

(** The setters, applied to an updater function. *)
Definition setHabits (f : list Habit -> list Habit) (s : State N) : State N :=
  mkState (f (habits s)) (todos s) (expenses s) (notes s) (memories s)
          (loans s) (rewards s) (sleepSessions s).
Definition setTodos (f : list Todo -> list Todo) (s : State N) : State N :=
  mkState (habits s) (f (todos s)) (expenses s) (notes s) (memories s)
          (loans s) (rewards s) (sleepSessions s).
Definition setExpenses (f : list (Expense N) -> list (Expense N)) (s : State N) : State N :=
  mkState (habits s) (todos s) (f (expenses s)) (notes s) (memories s)
          (loans s) (rewards s) (sleepSessions s).
Definition setNotes (f : list Note -> list Note) (s : State N) : State N :=
  mkState (habits s) (todos s) (expenses s) (f (notes s)) (memories s)
          (loans s) (rewards s) (sleepSessions s).
Definition setMemories (f : list Memory -> list Memory) (s : State N) : State N :=
  mkState (habits s) (todos s) (expenses s) (notes s) (f (memories s))
          (loans s) (rewards s) (sleepSessions s).
Definition setLoans (f : list (Loan N) -> list (Loan N)) (s : State N) : State N :=
  mkState (habits s) (todos s) (expenses s) (notes s) (memories s)
          (f (loans s)) (rewards s) (sleepSessions s).
Definition setRewards (f : Z -> Z) (s : State N) : State N :=
  mkState (habits s) (todos s) (expenses s) (notes s) (memories s)
          (loans s) (f (rewards s)) (sleepSessions s).
Definition setSleepSessions (f : list (SleepSession N) -> list (SleepSession N))
    (s : State N) : State N :=
  mkState (habits s) (todos s) (expenses s) (notes s) (memories s)
          (loans s) (rewards s) (f (sleepSessions s)).

(** [prev.map(f)] where the callback [f] may call [setRewards(r => ...)]:
    the reward counter is threaded through the calls in array order. *)
Fixpoint mapRewarding {A : Type} (f : A -> Z -> A * Z) (prev : list A) (r : Z)
    : list A * Z :=
  match prev with
  | [] => ([], r)
  | x :: rest =>
      let '(x', r1) := f x r in
      let '(rest', r2) := mapRewarding f rest r1 in
      (x' :: rest', r2)
  end.

(** *** Habits *)

Definition addHabit (c : Clock) (name : string) : State N -> State N :=
  let newHabit := mkHabit (dateNow c) name (Value []) (isoString c) in
  setHabits (fun prev => prev ++ [newHabit]).

(** [{ ...h, completedDates: ds }] *)
Definition withCompletedDates (h : Habit) (ds : list string) : Habit :=
  mkHabit (h_id h) (h_name h) (Value ds) (h_createdAt h).

(** The callback of [prev.map] in [toggleHabit].  [r + 10] is the program's
    [prev + 10] for a counter that stays a safe integer. *)
Definition toggleHabitEntry (today : string) (id : Z) (h : Habit) (r : Z) : Habit * Z :=
  if h_id h =? id then
    let dates := orEmpty (h_completedDates h) in
    if includes today dates
    then (withCompletedDates h (filter (fun d => negb (String.eqb d today)) dates), r)
    else (withCompletedDates h (dates ++ [today]), r + 10)
  else (h, r).

Definition toggleHabit (c : Clock) (id : Z) (s : State N) : State N :=
  let today := dateString c in
  let '(hs, r) := mapRewarding (toggleHabitEntry today id) (habits s) (rewards s) in
  setRewards (fun _ => r) (setHabits (fun _ => hs) s).

(** *** To-dos *)

Definition addTodo (c : Clock) (task : string) : State N -> State N :=
  let newTodo := mkTodo (dateNow c) task false Null (isoString c) in
  setTodos (fun prev => prev ++ [newTodo]).

(** [{ ...t, completed: b }] *)
Definition withCompleted (t : Todo) (b : bool) : Todo :=
  mkTodo (t_id t) (t_task t) b (t_photo t) (t_createdAt t).

(** The callback of [prev.map] in [toggleTodo].  [r + 5] is the program's
    [prev + 5] for a counter that stays a safe integer. *)
Definition toggleTodoEntry (id : Z) (t : Todo) (r : Z) : Todo * Z :=
  if (t_id t =? id) && negb (t_completed t)
  then (withCompleted t (negb (t_completed t)), r + 5)
  else ((if t_id t =? id then withCompleted t (negb (t_completed t)) else t), r).

Definition toggleTodo (id : Z) (s : State N) : State N :=
  let '(ts, r) := mapRewarding (toggleTodoEntry id) (todos s) (rewards s) in
  setRewards (fun _ => r) (setTodos (fun _ => ts) s).

(** [{ ...t, photo: p }]; [dataUrl] is what the file reader hands to the
    completion callback. *)
Definition uploadTodoPhoto (id : Z) (dataUrl : string) : State N -> State N :=
  setTodos (map (fun t =>
    if t_id t =? id
    then mkTodo (t_id t) (t_task t) (t_completed t) (Value dataUrl) (t_createdAt t)
    else t)).

(** *** Expenses, notes, memories, sleep; [amount] and [duration] are the
    results of [parseFloat]. *)

Definition addExpense (c : Clock) (description : string) (amount : N)
    (category : string) : State N -> State N :=
  let newExpense := mkExpense (dateNow c) description amount category (isoString c) in
  setExpenses (fun prev => prev ++ [newExpense]).

Definition addNote (c : Clock) (title content : string) : State N -> State N :=
  let newNote := mkNote (dateNow c) title content (isoString c) in
  setNotes (fun prev => prev ++ [newNote]).

Definition addMemory (c : Clock) (title dataUrl : string) : State N -> State N :=
  let newMemory := mkMemory (dateNow c) title dataUrl (isoString c) in
  setMemories (fun prev => prev ++ [newMemory]).

Definition addSleepSession (c : Clock) (duration : N) (isAfternoon : bool)
    : State N -> State N :=
  let newSession := mkSleepSession (dateNow c) duration isAfternoon (isoString c) in
  setSleepSessions (fun prev => prev ++ [newSession]).

(** *** Loans *)

(** The new loan has no [dateReturned] property. *)
Definition addLoan (c : Clock) (personName : string) (amount : N) (note : string)
    : State N -> State N :=
  let newLoan := mkLoan (dateNow c) personName amount note false (isoString c) Undefined in
  setLoans (fun prev => prev ++ [newLoan]).

(** The callback of [prev.map] in [toggleLoanReturn]. *)
Definition toggleLoanEntry (nowIso : string) (id : Z) (l : Loan N) : Loan N :=
  if l_id l =? id
  then mkLoan (l_id l) (l_personName l) (l_amount l) (l_note l)
              (negb (l_returned l)) (l_dateGiven l)
              (if negb (l_returned l) then Value nowIso else Null)
  else l.

Definition toggleLoanReturn (c : Clock) (id : Z) : State N -> State N :=
  setLoans (map (toggleLoanEntry (isoString c) id)).

(** *** Deletion *)

(** [prev.filter(item => item.id !== id)] *)
Definition removeById {A : Type} {H : HasId A} (id : Z) (prev : list A) : list A :=
  filter (fun item => negb (getId item =? id)) prev.

(** The [setters] table is looked up by the [type] string; a string that
    names no setter leaves the state alone. *)
Definition deleteItem (type : string) (id : Z) (s : State N) : State N :=
  if String.eqb type "habit" then setHabits (removeById id) s
  else if String.eqb type "todo" then setTodos (removeById id) s
  else if String.eqb type "expense" then setExpenses (removeById id) s
  else if String.eqb type "note" then setNotes (removeById id) s
  else if String.eqb type "memory" then setMemories (removeById id) s
  else if String.eqb type "loan" then setLoans (removeById id) s
  else if String.eqb type "sleep" then setSleepSessions (removeById id) s
  else s.

End Mutators.

(** ** Derived aggregates *)

Section Aggregates.
Context {N : Type} {num : Number N}.

(** [xs.reduce((sum, x) => sum + f(x), 0)] *)
Definition sumOf {A : Type} (f : A -> N) (xs : list A) : N :=
  fold_left (fun sum x => num_add sum (f x)) xs num_zero.

Definition completedTodosCount (s : State N) : nat :=
  List.length (filter t_completed (todos s)).

Definition pendingLoansAmount (s : State N) : N :=
  sumOf (@l_amount N) (filter (fun l => negb (l_returned l)) (loans s)).

Definition totalExpenses (s : State N) : N :=
  sumOf (@e_amount N) (expenses s).

(** The three figures of [LoanTracker], computed from its [loans] prop. *)
Definition totalLent (ls : list (Loan N)) : N :=
  sumOf (@l_amount N) ls.

Definition totalReturned (ls : list (Loan N)) : N :=
  sumOf (@l_amount N) (filter (@l_returned N) ls).

Definition pendingAmount (ls : list (Loan N)) : N :=
  num_sub (totalLent ls) (totalReturned ls).

(** *** The 7-day chart

    The [Date] object of the platform is a parameter: its type and the five
    operations the chart uses. *)
Variable Date : Type.
Variable getDate : Date -> Z.                 (* d.getDate() *)
Variable setDate : Date -> Z -> Date.         (* d.setDate(n), as the new value of d *)
Variable toDateString : Date -> string.       (* d.toDateString() *)
Variable toLocaleDateString : Date -> string. (* d.toLocaleDateString('en-US', {month:'short', day:'numeric'}) *)
Variable parseDate : string -> Date.          (* new Date(isoText) *)

Definition todaySleep (now : Date) (s : State N) : N :=
  let todayStr := toDateString now in
  sumOf (@s_duration N)
    (filter (fun x => String.eqb (toDateString (parseDate (s_date x))) todayStr)
            (sleepSessions s)).

Record ChartPoint : Type := mkChartPoint {
  cp_date : string;
  cp_Habits : nat;
  cp_Tasks : nat;
  cp_Expenses : N;
  cp_Sleep : N
}.

(** The body of the loop for one value of [i]; [now] is [new Date()], read
    when the memoised computation runs (the seven turns of one run read the
    clock within the same instant and are given the same [now]).  [useMemo] runs it again only when
    one of [habits], [todos], [expenses], [sleepSessions] has changed, so the
    chart on display is the one of the current collections at the reading
    [now] of the render that followed their last change. *)
Definition chartPoint (now : Date) (s : State N) (i : Z) : ChartPoint :=
  let date := setDate now (getDate now - i) in
  let dateStr := toDateString date in
  let habitsCompleted :=
    fold_left (fun sum h =>
                 (sum + (if optIncludes dateStr (h_completedDates h) then 1 else 0))%nat)
              (habits s) 0%nat in
  let todosCompleted :=
    List.length (filter (fun t =>
                      let todoDate := toDateString (parseDate (t_createdAt t)) in
                      t_completed t && String.eqb todoDate dateStr)
                   (todos s)) in
  let dayExpenses :=
    sumOf (@e_amount N)
      (filter (fun e => String.eqb (toDateString (parseDate (e_date e))) dateStr)
              (expenses s)) in
  let daySleep :=
    sumOf (@s_duration N)
      (filter (fun x => String.eqb (toDateString (parseDate (s_date x))) dateStr)
              (sleepSessions s)) in
  mkChartPoint (toLocaleDateString date) habitsCompleted todosCompleted dayExpenses daySleep.

(** [for (let i = n; i >= 0; i--) last7Days.push(...)] *)
Fixpoint chartLoop (now : Date) (s : State N) (i : nat) (last7Days : list ChartPoint)
    : list ChartPoint :=
  let pushed := last7Days ++ [chartPoint now s (Z.of_nat i)] in
  match i with
  | O => pushed
  | S j => chartLoop now s j pushed
  end.

Definition getChartData (now : Date) (s : State N) : list ChartPoint :=
  chartLoop now s 6 [].

End Aggregates.
Arguments ChartPoint : clear implicits.

(** ** Sequences of user actions *)

Inductive Action (N : Type) : Type :=
| AddHabit (name : string)
| ToggleHabit (id : Z)
| AddTodo (task : string)
| ToggleTodo (id : Z)
| UploadTodoPhoto (id : Z) (dataUrl : string)
| AddExpense (description : string) (amount : N) (category : string)
| AddNote (title content : string)
| AddMemory (title dataUrl : string)
| AddLoan (personName : string) (amount : N) (note : string)
| ToggleLoanReturn (id : Z)
| AddSleepSession (duration : N) (isAfternoon : bool)
| DeleteItem (type : string) (id : Z).
Arguments AddHabit {N}.
Arguments ToggleHabit {N}.
Arguments AddTodo {N}.
Arguments ToggleTodo {N}.
Arguments UploadTodoPhoto {N}.
Arguments AddNote {N}.
Arguments AddMemory {N}.
Arguments ToggleLoanReturn {N}.
Arguments DeleteItem {N}.

Section Runs.
Context {N : Type}.

(** One action, performed when the clock reads [c]. *)
Definition step (c : Clock) (a : Action N) : State N -> State N :=
  match a with
  | AddHabit name => addHabit c name
  | ToggleHabit id => toggleHabit c id
  | AddTodo task => addTodo c task
  | ToggleTodo id => toggleTodo id
  | UploadTodoPhoto id dataUrl => uploadTodoPhoto id dataUrl
  | AddExpense description amount category => addExpense c description amount category
  | AddNote title content => addNote c title content
  | AddMemory title dataUrl => addMemory c title dataUrl
  | AddLoan personName amount note => addLoan c personName amount note
  | ToggleLoanReturn id => toggleLoanReturn c id
  | AddSleepSession duration isAfternoon => addSleepSession c duration isAfternoon
  | DeleteItem type id => deleteItem type id
  end.

(** The actions of a session, oldest first, each with its clock reading. *)
Fixpoint run (events : list (Clock * Action N)) (s : State N) : State N :=
  match events with
  | [] => s
  | (c, a) :: rest => run rest (step c a s)
  end.

Definition isAdd (a : Action N) : bool :=
  match a with
  | AddHabit _ | AddTodo _ | AddExpense _ _ _ | AddNote _ _ | AddMemory _ _
  | AddLoan _ _ _ | AddSleepSession _ _ => true
  | _ => false
  end.

Definition isLoanAction (a : Action N) : bool :=
  match a with
  | AddLoan _ _ _ | ToggleLoanReturn _ => true
  | _ => false
  end.

(** The ids of the collection a [deleteItem] type string targets. *)
Definition targetedIds (type : string) (s : State N) : option (list Z) :=
  if String.eqb type "habit" then Some (map getId (habits s))
  else if String.eqb type "todo" then Some (map getId (todos s))
  else if String.eqb type "expense" then Some (map getId (expenses s))
  else if String.eqb type "note" then Some (map getId (notes s))
  else if String.eqb type "memory" then Some (map getId (memories s))
  else if String.eqb type "loan" then Some (map getId (loans s))
  else if String.eqb type "sleep" then Some (map getId (sleepSessions s))
  else None.

End Runs.

(** ** Export and import of the whole state

    The import path handles whatever [JSON.parse] returns, so this part of
    the component is embedded over untyped JSON values: each piece of state
    is a [value], as [setAllData] installs the document's values unchecked. *)

Module Snapshot.

Local Unset Elimination Schemes.
Inductive value : Type :=
| JNull
| JBool (b : bool)
| JNumber (x : float)
| JString (s : string)
| JArray (items : list value)
| JObject (fields : list (string * value)).
Local Set Elimination Schemes.

(** [typeof v] *)
Definition typeof (v : value) : string :=
  match v with
  | JNull => "object"
  | JBool _ => "boolean"
  | JNumber _ => "number"
  | JString _ => "string"
  | JArray _ => "object"
  | JObject _ => "object"
  end.

(** [v === null] *)
Definition isNull (v : value) : bool :=
  match v with
  | JNull => true
  | _ => false
  end.

(** [if (v)]: [null], [false], [0], [-0], [NaN] and the empty string are
    falsy; every array and object is truthy. *)
Definition truthy (v : value) : bool :=
  match v with
  | JNull => false
  | JBool b => b
  | JNumber x => negb (PrimFloat.eqb x 0%float || PrimFloat.is_nan x)
  | JString s => negb (String.eqb s "")
  | JArray _ => true
  | JObject _ => true
  end.

(** [fields] holds the own properties of a parsed object, each key once. *)
Fixpoint lookup (key : string) (fields : list (string * value)) : option value :=
  match fields with
  | [] => None
  | (k, v) :: rest => if String.eqb k key then Some v else lookup key rest
  end.

(** [v.key] for one of the eight state keys; [None] is [undefined].  An
    array has none of these properties; [importData] lets only arrays and
    objects reach [setAllData]. *)
Definition getProp (v : value) (key : string) : option value :=
  match v with
  | JObject fields => lookup key fields
  | _ => None
  end.

Record Store : Type := mkStore {
  habits : value;
  todos : value;
  expenses : value;
  notes : value;
  memories : value;
  loans : value;
  rewards : value;
  sleepSessions : value
}.

(** The setters, applied to a plain value. *)
Definition setHabits (v : value) (s : Store) : Store :=
  mkStore v (todos s) (expenses s) (notes s) (memories s) (loans s) (rewards s)
          (sleepSessions s).
Definition setTodos (v : value) (s : Store) : Store :=
  mkStore (habits s) v (expenses s) (notes s) (memories s) (loans s) (rewards s)
          (sleepSessions s).
Definition setExpenses (v : value) (s : Store) : Store :=
  mkStore (habits s) (todos s) v (notes s) (memories s) (loans s) (rewards s)
          (sleepSessions s).
Definition setNotes (v : value) (s : Store) : Store :=
  mkStore (habits s) (todos s) (expenses s) v (memories s) (loans s) (rewards s)
          (sleepSessions s).
Definition setMemories (v : value) (s : Store) : Store :=
  mkStore (habits s) (todos s) (expenses s) (notes s) v (loans s) (rewards s)
          (sleepSessions s).
Definition setLoans (v : value) (s : Store) : Store :=
  mkStore (habits s) (todos s) (expenses s) (notes s) (memories s) v (rewards s)
          (sleepSessions s).
Definition setRewards (v : value) (s : Store) : Store :=
  mkStore (habits s) (todos s) (expenses s) (notes s) (memories s) (loans s) v
          (sleepSessions s).
Definition setSleepSessions (v : value) (s : Store) : Store :=
  mkStore (habits s) (todos s) (expenses s) (notes s) (memories s) (loans s)
          (rewards s) v.

(** [if (newData.key) setKey(newData.key);] *)
Definition setIfTruthy (newData : value) (key : string)
    (setter : value -> Store -> Store) (s : Store) : Store :=
  match getProp newData key with
  | Some v => if truthy v then setter v s else s
  | None => s
  end.

Definition setAllData (newData : value) (s : Store) : Store :=
  let s1 := setIfTruthy newData "habits" setHabits s in
  let s2 := setIfTruthy newData "todos" setTodos s1 in
  let s3 := setIfTruthy newData "expenses" setExpenses s2 in
  let s4 := setIfTruthy newData "notes" setNotes s3 in
  let s5 := setIfTruthy newData "memories" setMemories s4 in
  let s6 := setIfTruthy newData "loans" setLoans s5 in
  let s7 := setIfTruthy newData "rewards" setRewards s6 in
  setIfTruthy newData "sleepSessions" setSleepSessions s7.

(** The document handed to [exportData]; [exportDate] is
    [new Date().toISOString()]. *)
Definition allData (s : Store) (exportDate : string) : value :=
  JObject [ ("habits", habits s);
            ("todos", todos s);
            ("expenses", expenses s);
            ("notes", notes s);
            ("memories", memories s);
            ("loans", loans s);
            ("rewards", rewards s);
            ("sleepSessions", sleepSessions s);
            ("exportDate", JString exportDate) ].

Definition importSucceeded : string := "Data imported successfully!".
Definition importFailed : string := "Error importing data. Please check the file format.".

Section Codec.
(** The platform's serializer and parser; [JSON_parse] is [None] where
    [JSON.parse] throws. *)
Variable JSON_stringify : value -> string.
Variable JSON_parse : string -> option value.

(** The text of the downloaded backup file. *)
Definition exportData (document : value) : string :=
  JSON_stringify document.

(** The [onload] handler of [importData]: the state after it and the text
    of the alert it raises.  A throw inside [try], by [JSON.parse] or by the
    validation, lands in [catch] before [setAllData] is reached. *)
Definition importData (text : string) (s : Store) : Store * string :=
  match JSON_parse text with
  | None => (s, importFailed)
  | Some importedData =>
      if negb (String.eqb (typeof importedData) "object") || isNull importedData
      then (s, importFailed)
      else (setAllData importedData s, importSucceeded)
  end.

End Codec.

(** Whether a piece of state holds an array, as every collection does. *)
Definition isArray (v : value) : bool :=
  match v with
  | JArray _ => true
  | _ => false
  end.

Definition collectionsAreArrays (s : Store) : bool :=
  isArray (habits s) && isArray (todos s) && isArray (expenses s) &&
  isArray (notes s) && isArray (memories s) && isArray (loans s) &&
  isArray (sleepSessions s).

(** What a piece of state holds after [setAllData]: the document's value
    under its key when there is one and it is truthy, and otherwise what it
    held before. *)
Definition merged (newData : value) (key : string) (old : value) : value :=
  match getProp newData key with
  | Some v => if truthy v then v else old
  | None => old
  end.

(** An object in the sense of the document format: a collection of named
    members, as opposed to an array, a string, a number, a boolean or
    [null]. *)
Definition isJsonObject (v : value) : bool :=
  match v with
  | JObject _ => true
  | _ => false
  end.

End Snapshot.

(** ** Observations used in the statements *)

Section Observations.
Context {N : Type}.



(** [toggleTodo]'s effect on one task, the reward left aside. *)
Definition flipIfId (id : Z) (u : Todo) : Todo :=
  if t_id u =? id then withCompleted u (negb (t_completed u)) else u.







(** Clock readings of a session: strictly increasing / never decreasing. *)
Definition clockStrict (events : list (Clock * Action N)) : Prop :=
  StronglySorted Z.lt (map (fun e => dateNow (fst e)) events).

Definition clockMonotone (events : list (Clock * Action N)) : Prop :=
  StronglySorted Z.le (map (fun e => dateNow (fst e)) events).

End Observations.

(** The ids of the seven collections, each in collection order. *)
Definition allIds {N : Type} (s : State N) : list (list Z) :=
  [ map getId (habits s); map getId (todos s); map getId (expenses s);
    map getId (notes s); map getId (memories s); map getId (loans s);
    map getId (sleepSessions s) ].

(** How the ids of one collection can change in an action performed when
    [Date.now()] reads [t]: not at all, by the new id [t] at the end, or by
    losing the ids rejected by a filter. *)
Definition evolves (t : Z) (ids ids' : list Z) : Prop :=
  ids' = ids \/ ids' = ids ++ [t] \/ exists p, ids' = filter p ids.

(** The ids of a collection are sorted by [R] and related by [R] to every
    clock reading still to come. *)
Definition below (R : Z -> Z -> Prop) (future : list Z) (ids : list Z) : Prop :=
  StronglySorted R ids /\ Forall (fun i => Forall (R i) future) ids.

Section ChartSpec.
Context {N : Type} {num : Number N}.
Variable Date : Type.
Variable toDateString : Date -> string.
Variable toLocaleDateString : Date -> string.
Variable parseDate : string -> Date.

(** The chart record of one calendar day, in the words of the
    specification: the count of habits whose completion dates include the
    day, the count of tasks created that day and completed, the sum of the
    expense amounts dated that day and the sum of the sleep durations dated
    that day (sums taken in collection order). *)
Definition dayRecord_spec (day : Date) (s : State N) : ChartPoint N :=
  let dayStr := toDateString day in
  let onDay (iso : string) := String.eqb (toDateString (parseDate iso)) dayStr in
  mkChartPoint
    (toLocaleDateString day)
    (List.length (filter (fun h => optIncludes dayStr (h_completedDates h)) (habits s)))
    (List.length (filter (fun t => t_completed t && onDay (t_createdAt t)) (todos s)))
    (sumOf (@e_amount N) (filter (fun e => onDay (e_date e)) (expenses s)))
    (sumOf (@s_duration N) (filter (fun x => onDay (s_date x)) (sleepSessions s))).

End ChartSpec.

Section MoreObservations.
Context {N : Type}.

(** The state with the collection a [deleteItem] type string targets
    emptied: what is left is everything the deletion must not touch. *)
Definition clearCollection (type : string) (s : State N) : State N :=
  if String.eqb type "habit" then setHabits (fun _ => []) s
  else if String.eqb type "todo" then setTodos (fun _ => []) s
  else if String.eqb type "expense" then setExpenses (fun _ => []) s
  else if String.eqb type "note" then setNotes (fun _ => []) s
  else if String.eqb type "memory" then setMemories (fun _ => []) s
  else if String.eqb type "loan" then setLoans (fun _ => []) s
  else if String.eqb type "sleep" then setSleepSessions (fun _ => []) s
  else s.

(** The [deleteItem] type string of the collection an add action appends
    to. *)
Definition addedType (a : Action N) : option string :=
  match a with
  | AddHabit _ => Some "habit"
  | AddTodo _ => Some "todo"
  | AddExpense _ _ _ => Some "expense"
  | AddNote _ _ => Some "note"
  | AddMemory _ _ => Some "memory"
  | AddLoan _ _ _ => Some "loan"
  | AddSleepSession _ _ => Some "sleep"
  | _ => None
  end.

(** Whether an action is one of the two that pay reward points. *)
Definition paysRewards (a : Action N) : bool :=
  match a with
  | ToggleHabit _ | ToggleTodo _ => true
  | _ => false
  end.

(** [{ ...l, dateReturned: d }] *)
Definition withDateReturned (l : Loan N) (d : optional string) : Loan N :=
  mkLoan (l_id l) (l_personName l) (l_amount l) (l_note l) (l_returned l)
         (l_dateGiven l) d.


End MoreObservations.

(** ** The dashboard's recent activity *)

Record Activity : Type := mkActivity {
  a_type : string;
  a_text : string
}.

(** [xs.slice(-n)]: the last [n] elements, all of them when there are fewer. *)
Definition sliceLast {A : Type} (n : nat) (xs : list A) : list A :=
  skipn (List.length xs - n) xs.

(** [recentActivity] of [DashboardView]; [today] is
    [new Date().toDateString()]. *)
Definition recentActivity (today : string) (hs : list Habit) (ts : list Todo)
    : list Activity :=
  let completedHabits :=
    map (fun h => mkActivity "habit" ("Completed habit: " ++ h_name h)%string)
        (firstn 3 (filter (fun h => optIncludes today (h_completedDates h)) hs)) in
  let completedTodos :=
    map (fun t => mkActivity "todo" ("Completed task: " ++ t_task t)%string)
        (sliceLast 3 (filter t_completed ts)) in
  firstn 6 (completedHabits ++ completedTodos).

(** ** Objects used as dictionaries

    [categoryTotals] and [sleepChartData] build a plain object key by key.
    The object is embedded by the list of its own properties; a read
    [obj[k]] of a key that is not its own finds [undefined].  That matches
    the program for every key that does not name a property inherited from
    [Object.prototype], the keys listed here. *)
Definition objectPrototypeKeys : list string :=
  [ "constructor"; "hasOwnProperty"; "isPrototypeOf"; "propertyIsEnumerable";
    "toLocaleString"; "toString"; "valueOf"; "__proto__";
    "__defineGetter__"; "__defineSetter__"; "__lookupGetter__"; "__lookupSetter__" ].

Definition ownKey (k : string) : Prop := ~ In k objectPrototypeKeys.

(** [obj[k]], [None] for [undefined]. *)
Fixpoint getKey {V : Type} (k : string) (obj : list (string * V)) : option V :=
  match obj with
  | [] => None
  | (k', v) :: rest => if String.eqb k' k then Some v else getKey k rest
  end.

(** [obj[k] = v]: an own key keeps its place, a new one goes last.  (An
    object enumerates keys that are array indices before the others; no
    statement below reads the order of the keys.) *)
Fixpoint setKey {V : Type} (k : string) (v : V) (obj : list (string * V))
    : list (string * V) :=
  match obj with
  | [] => [(k, v)]
  | (k', v') :: rest =>
      if String.eqb k' k then (k', v) :: rest else (k', v') :: setKey k v rest
  end.

(** [if (x)] on a number: [0], [-0] and [NaN] are falsy. *)
Class NumberTruth (N : Type) : Type := num_truthy : N -> bool.

#[export] Instance binary64_NumberTruth : NumberTruth float :=
  fun x => negb (PrimFloat.eqb x 0%float || PrimFloat.is_nan x).

#[export] Instance exact_NumberTruth : NumberTruth Z :=
  fun x => negb (x =? 0).

Section Dictionaries.
Context {N : Type} {num : Number N} {truth : NumberTruth N}.

(** [t || 0] where [t] is a number or [undefined]. *)
Definition orZero (t : option N) : N :=
  match t with
  | Some x => if num_truthy x then x else num_zero
  | None => num_zero
  end.

(** [categoryTotals] of [ExpenseTracker]. *)
Definition categoryTotals (es : list (Expense N)) : list (string * N) :=
  fold_left
    (fun totals expense =>
       setKey (e_category expense)
              (num_add (orZero (getKey (e_category expense) totals)) (e_amount expense))
              totals)
    es [].

(** The running total of one category, as the loop computes it: each
    expense of the category is added to the total so far, or to 0 when the
    total so far is falsy. *)
Definition categoryRun (c : string) (es : list (Expense N)) : N :=
  fold_left (fun t e => num_add (if num_truthy t then t else num_zero) (e_amount e))
            (filter (fun e => String.eqb (e_category e) c) es) num_zero.

(** The body of the [forEach] in [categoryTotals], and what it does to the
    entry of one category [c]. *)
Definition addExpenseTo (totals : list (string * N)) (expense : Expense N)
    : list (string * N) :=
  setKey (e_category expense)
         (num_add (orZero (getKey (e_category expense) totals)) (e_amount expense))
         totals.

Definition entryStep (c : string) (t : option N) (e : Expense N) : option N :=
  if String.eqb (e_category e) c then Some (num_add (orZero t) (e_amount e)) else t.

(** The body of the [reduce] in [sleepChartData], with the day of a session
    given by [day], and what it does to the group of one day [d]. *)
Definition addSessionTo (day : SleepSession N -> string)
    (acc : list (string * list (SleepSession N))) (session : SleepSession N)
    : list (string * list (SleepSession N)) :=
  let dateStr := day session in
  let sessions := match getKey dateStr acc with
                  | Some l => l
                  | None => []
                  end in
  setKey dateStr (sessions ++ [session]) acc.

Definition groupStep (day : SleepSession N -> string) (d : string)
    (g : option (list (SleepSession N))) (x : SleepSession N)
    : option (list (SleepSession N)) :=
  if String.eqb (day x) d
  then Some (match g with Some l => l | None => [] end ++ [x])
  else g.

(** *** The sleep history chart of [SleepTracker] *)
Variable Date : Type.
Variable toDateString : Date -> string.
Variable toLocaleDateString : Date -> string.
Variable parseDate : string -> Date.

Record SleepPoint : Type := mkSleepPoint {
  sp_date : string;
  sp_nightSleep : N;
  sp_afternoonSleep : N
}.

(** The calendar day of a session, [new Date(session.date).toDateString()]. *)
Definition sessionDay (x : SleepSession N) : string :=
  toDateString (parseDate (s_date x)).

(** The [reduce] that groups the sessions by day. *)
Definition sessionsByDate (xs : list (SleepSession N))
    : list (string * list (SleepSession N)) :=
  fold_left
    (fun acc session =>
       let dateStr := sessionDay session in
       let sessions := match getKey dateStr acc with
                       | Some l => l
                       | None => []
                       end in
       setKey dateStr (sessions ++ [session]) acc)
    xs [].

(** The record of one day's group. *)
Definition sleepPoint (dateStr : string) (sessions : list (SleepSession N))
    : SleepPoint :=
  let afternoonSleep := sumOf (@s_duration N) (filter (@s_isAfternoon N) sessions) in
  let nightSleep :=
    sumOf (@s_duration N) (filter (fun x => negb (s_isAfternoon x)) sessions) in
  mkSleepPoint (toLocaleDateString (parseDate dateStr)) nightSleep afternoonSleep.

(** [sortChart] is the platform's [chartData.sort(...)] with the chart's
    comparator. *)
Variable sortChart : list SleepPoint -> list SleepPoint.

Definition sleepChartData (xs : list (SleepSession N)) : list SleepPoint :=
  let chartData := map (fun g => sleepPoint (fst g) (snd g)) (sessionsByDate xs) in
  sortChart chartData.

(** The two figures of [SleepTracker] for today. *)
Definition totalTodaySleep (now : Date) (xs : list (SleepSession N)) : N :=
  sumOf (@s_duration N)
    (filter (fun x => String.eqb (sessionDay x) (toDateString now)) xs).

Definition totalTodayAfternoonSleep (now : Date) (xs : list (SleepSession N)) : N :=
  sumOf (@s_duration N)
    (filter (@s_isAfternoon N)
       (filter (fun x => String.eqb (sessionDay x) (toDateString now)) xs)).

End Dictionaries.
Arguments SleepPoint : clear implicits.

(** ** [useLocalStorage]

    The hook keeps a value in React state and mirrors it in
    [window.localStorage].  Its setter is called with a plain value (by
    [setAllData]) or with an updater function (by every mutator). *)

Module LocalStorage.

(** The stored texts by key; [None] is the [null] of [getItem]. *)
Definition Storage : Type := string -> option string.

Definition getItem (key : string) (st : Storage) : option string := st key.

Definition setItem (key text : string) (st : Storage) : Storage :=
  fun k => if String.eqb k key then Some text else st k.

Inductive SetterArg : Type :=
| Plain (v : Snapshot.value)
| Updater (f : Snapshot.value -> Snapshot.value).

Section Hook.
Variable JSON_stringify : Snapshot.value -> string.
Variable JSON_parse : string -> option Snapshot.value.

(** The initializer of [useState]: the stored text parsed, or
    [initialValue] when there is no text, the text is empty or
    [JSON.parse] throws. *)
Definition readStored (key : string) (initialValue : Snapshot.value) (st : Storage)
    : Snapshot.value :=
  match getItem key st with
  | None => initialValue
  | Some item =>
      if String.eqb item "" then initialValue
      else match JSON_parse item with
           | Some v => v
           | None => initialValue
           end
  end.

(** [JSON.stringify(newValue)] turned into the text [setItem] stores.
    [JSON.stringify] of a function is [undefined], which [setItem] converts
    to the text ["undefined"]. *)
Definition storedText (newValue : SetterArg) : string :=
  match newValue with
  | Plain v => JSON_stringify v
  | Updater _ => "undefined"
  end.

(** [setStoredValue(newValue)] on the current value and storage.
    [writable] tells whether [setItem] succeeds; when it throws (the quota
    is exceeded) the error is caught after the state has been set. *)
Definition setStoredValue (key : string) (newValue : SetterArg) (writable : bool)
    (current : Snapshot.value * Storage) : Snapshot.value * Storage :=
  let value := match newValue with
               | Plain v => v
               | Updater f => f (fst current)
               end in
  (value,
   if writable then setItem key (storedText newValue) (snd current) else snd current).

End Hook.

End LocalStorage.

(** The integers binary64 holds exactly and adds exactly: while the reward
    counter stays within them, the additions of the program and those of
    [Z] give the same number. *)
Definition safeInteger (z : Z) : Prop := - (2 ^ 53 - 1) <= z <= 2 ^ 53 - 1.

(** An entity of any of the seven collections, for statements about
    [deleteItem], which treats them alike. *)
Inductive Item (N : Type) : Type :=
| HabitItem (h : Habit)
| TodoItem (t : Todo)
| ExpenseItem (e : Expense N)
| NoteItem (n : Note)
| MemoryItem (m : Memory)
| LoanItem (l : Loan N)
| SleepItem (x : SleepSession N).
Arguments HabitItem {N}.
Arguments TodoItem {N}.
Arguments NoteItem {N}.
Arguments MemoryItem {N}.

(** [item.id] *)
Definition itemId {N : Type} (it : Item N) : Z :=
  match it with
  | HabitItem h => h_id h
  | TodoItem t => t_id t
  | ExpenseItem e => e_id e
  | NoteItem n => n_id n
  | MemoryItem m => m_id m
  | LoanItem l => l_id l
  | SleepItem x => s_id x
  end.

(** The entities of the collection a [deleteItem] type string targets, in
    collection order. *)
Definition targetedItems {N : Type} (type : string) (s : State N)
    : option (list (Item N)) :=
  if String.eqb type "habit" then Some (map HabitItem (habits s))
  else if String.eqb type "todo" then Some (map TodoItem (todos s))
  else if String.eqb type "expense" then Some (map (@ExpenseItem N) (expenses s))
  else if String.eqb type "note" then Some (map NoteItem (notes s))
  else if String.eqb type "memory" then Some (map MemoryItem (memories s))
  else if String.eqb type "loan" then Some (map (@LoanItem N) (loans s))
  else if String.eqb type "sleep" then Some (map (@SleepItem N) (sleepSessions s))
  else None.

(** ** Sample data *)

(** A clock reading on Monday 1 January 2024, [ms] milliseconds in. *)
Definition mondayAt (ms : Z) : Clock :=
  mkClock ms "2024-01-01T09:00:00.000Z" "Mon Jan 01 2024".

(** One habit, added at reading 1000. *)
Definition oneHabit : State float :=
  addHabit (mondayAt 1000) "Drink water" (initialState float).

(** One incomplete task, added at reading 1000. *)
Definition oneTodo : State float :=
  addTodo (mondayAt 1000) "Buy milk" (initialState float).

(** Loans of 0.1, 0.2 and 0.3, written as the binary64 numbers [parseFloat]
    reads from these texts, the first one then marked returned. *)
Definition threeLoans : list (Clock * Action float) :=
  [ (mondayAt 1000, AddLoan "Ann" 0x1.999999999999ap-4%float "lunch");
    (mondayAt 2000, AddLoan "Bob" 0x1.999999999999ap-3%float "bus");
    (mondayAt 3000, AddLoan "Cyd" 0x1.3333333333333p-2%float "");
    (mondayAt 4000, ToggleLoanReturn 1000) ].

(** The same session with whole amounts, in exact arithmetic. *)
Definition wholeLoans : list (Clock * Action Z) :=
  [ (mondayAt 1000, AddLoan "Ann" 100 "lunch");
    (mondayAt 2000, AddLoan "Bob" 50 "bus");
    (mondayAt 3000, AddLoan "Cyd" 25 "");
    (mondayAt 4000, ToggleLoanReturn 1000) ].

(** Two habits added while the clock reads the same millisecond. *)
Definition sameMillisecond : list (Clock * Action float) :=
  [ (mondayAt 1000, AddHabit "Read"); (mondayAt 1000, AddHabit "Walk") ].

(** A habit and a task added one millisecond apart. *)
Definition oneApart : list (Clock * Action float) :=
  [ (mondayAt 1000, AddHabit "Read"); (mondayAt 1001, AddHabit "Walk");
    (mondayAt 1002, AddTodo "Buy milk") ].

(** A stand-in for the platform's [Date] on which the chart can be run:
    a date is a day number, [setDate] replaces it, the text of a day is its
    number in unary and a timestamp text is dated by its length. *)
Definition dayGetDate (d : Z) : Z := d.
Definition daySetDate (d n : Z) : Z := n.
Definition dayText (d : Z) : string := String.concat "" (repeat "I" (Z.to_nat d)).
Definition dayOfText (iso : string) : Z := Z.of_nat (String.length iso).

(** A clock reading on day [d] of that stand-in, with the texts it gives. *)
Definition dayClock (ms d : Z) : Clock :=
  mkClock ms (String.concat "" (repeat "T" (Z.to_nat d))) (dayText d).

(** Two days of use: on day 9 a habit is added and completed and a fare is
    paid; on day 10 a task is added and completed, the habit is completed
    again and a night of sleep is recorded. *)
Definition twoDays : State float :=
  run [ (dayClock 1000 9, AddHabit "Read");
        (dayClock 2000 9, AddExpense "Bus" 2%float "Transport");
        (dayClock 3000 9, ToggleHabit 1000);
        (dayClock 4000 10, AddTodo "Buy milk");
        (dayClock 5000 10, ToggleTodo 4000);
        (dayClock 6000 10, ToggleHabit 1000);
        (dayClock 7000 10, AddSleepSession 7.5%float false) ]
      (initialState float).

(** One loan of 100 to Sam. *)
Definition samLoan : State float :=
  addLoan (mondayAt 1000) "Sam" 100%float "lunch" (initialState float).

(** Coffee for 4.50 and a bus fare of 2.00. *)
Definition twoExpenses : State float :=
  addExpense (mondayAt 2000) "Bus" 2%float "Transport"
    (addExpense (mondayAt 1000) "Coffee" 4.5%float "Food" (initialState float)).

(** A store with empty collections and the given reward counter. *)
Definition emptyStore (points : float) : Snapshot.Store :=
  Snapshot.mkStore (Snapshot.JArray []) (Snapshot.JArray []) (Snapshot.JArray [])
                   (Snapshot.JArray []) (Snapshot.JArray []) (Snapshot.JArray [])
                   (Snapshot.JNumber points) (Snapshot.JArray []).

(** The documents [{ rewards: 500 }] and [{ rewards: 0 }]. *)
Definition onlyRewards500 : Snapshot.value :=
  Snapshot.JObject [("rewards", Snapshot.JNumber 500%float)].
Definition onlyRewards0 : Snapshot.value :=
  Snapshot.JObject [("rewards", Snapshot.JNumber 0%float)].

(** What [JSON.parse] does on the three texts used below: an empty array,
    [null], and a text that is not JSON. *)
Definition parseSample (text : string) : option Snapshot.value :=
  if String.eqb text "[]" then Some (Snapshot.JArray [])
  else if String.eqb text "null" then Some Snapshot.JNull
  else None.

(** A serializer and parser pair that agree on the backup of [emptyStore]:
    the file text stands for the document it was written from. *)
Definition backupText : string := "soumik-lifestyle-backup-2024-01-01.json".
Definition writeBackup (document : Snapshot.value) : string := backupText.
Definition readBackup (points : float) (text : string) : option Snapshot.value :=
  if String.eqb text backupText
  then Some (Snapshot.allData (emptyStore points) "2024-01-01T09:00:00.000Z")
  else None.


(** Three sleep sessions of the stand-in platform: a night of 7 hours and a
    nap of 1.5 hours on day 9, a night of 8 hours on day 10. *)
Definition sleepLog : list (SleepSession float) :=
  [ mkSleepSession 1000 7%float false "TTTTTTTTT";
    mkSleepSession 2000 1.5%float true "TTTTTTTTT";
    mkSleepSession 3000 8%float false "TTTTTTTTTT" ].

(** * Properties *)

(** ** Generic facts on the list operations *)

Lemma mapRewarding_fixed (A : Type) (f : A -> Z -> A * Z) (xs : list A) (r : Z) :
  (forall x r0, In x xs -> f x r0 = (x, r0)) ->
  mapRewarding f xs r = (xs, r).
Proof.
  revert r; induction xs as [|x xs IH]; intros r Hfix; simpl.
  - reflexivity.
  - rewrite (Hfix x r (or_introl eq_refl)).
    rewrite IH by (intros y r0 Hy; apply Hfix; right; exact Hy).
    reflexivity.
Qed.

Lemma mapRewarding_pure (A : Type) (g : A -> A) (f : A -> Z -> A * Z)
    (xs : list A) (r : Z) :
  (forall x r0, fst (f x r0) = g x) ->
  fst (mapRewarding f xs r) = map g xs.
Proof.
  intros Hg; revert r; induction xs as [|x xs IH]; intros r; simpl.
  - reflexivity.
  - specialize (Hg x r). destruct (f x r) as [x' r1]; simpl in Hg; subst x'.
    specialize (IH r1). destruct (mapRewarding f xs r1) as [rest r2].
    simpl in *. now rewrite IH.
Qed.

Lemma removeById_absent (A : Type) (H : HasId A) (id : Z) (xs : list A) :
  ~ In id (map getId xs) -> removeById id xs = xs.
Proof.
  unfold removeById; induction xs as [|x xs IH]; simpl; intros Hnot.
  - reflexivity.
  - destruct (Z.eqb_spec (getId x) id) as [E|E]; simpl.
    + exfalso; apply Hnot; left; exact E.
    + rewrite IH; [reflexivity | intro Hin; apply Hnot; right; exact Hin].
Qed.

Lemma map_fixed (A : Type) (f : A -> A) (xs : list A) :
  (forall x, In x xs -> f x = x) -> map f xs = xs.
Proof.
  induction xs as [|x xs IH]; simpl; intros Hfix.
  - reflexivity.
  - rewrite (Hfix x (or_introl eq_refl)), IH; [reflexivity|].
    intros y Hy; apply Hfix; right; exact Hy.
Qed.



Lemma state_eta (N : Type) (s : State N) :
  mkState (habits s) (todos s) (expenses s) (notes s) (memories s) (loans s)
          (rewards s) (sleepSessions s) = s.
Proof. destruct s; reflexivity. Qed.

(** ** Habits *)

Section HabitFacts.
Context {N : Type}.
Variable today : string.
Variable id : Z.

Lemma toggleHabitEntry_id (h : Habit) (r : Z) :
  h_id (fst (toggleHabitEntry today id h r)) = h_id h.
Proof.
  unfold toggleHabitEntry.
  destruct (h_id h =? id); [|reflexivity].
  destruct (includes today (orEmpty (h_completedDates h))); reflexivity.
Qed.

Lemma toggleHabitEntry_other (h : Habit) (r : Z) :
  h_id h <> id -> toggleHabitEntry today id h r = (h, r).
Proof.
  intros Hne. unfold toggleHabitEntry.
  destruct (Z.eqb_spec (h_id h) id); [contradiction|reflexivity].
Qed.



Lemma mapRewarding_toggleHabit_ids (hs : list Habit) (r : Z) :
  map h_id (fst (mapRewarding (toggleHabitEntry today id) hs r)) = map h_id hs.
Proof.
  revert r; induction hs as [|h hs IH]; intros r; simpl.
  - reflexivity.
  - pose proof (toggleHabitEntry_id h r) as Hh.
    destruct (toggleHabitEntry today id h r) as [h' r1]. simpl in Hh.
    specialize (IH r1).
    destruct (mapRewarding (toggleHabitEntry today id) hs r1) as [rest r2].
    simpl in *. now rewrite Hh, IH.
Qed.

Lemma mapRewarding_toggleHabit_absent (hs : list Habit) (r : Z) :
  ~ In id (map h_id hs) ->
  mapRewarding (toggleHabitEntry today id) hs r = (hs, r).
Proof.
  intros Hnot. apply mapRewarding_fixed.
  intros h r0 Hin. apply toggleHabitEntry_other.
  intro E. apply Hnot. rewrite <- E. now apply in_map.
Qed.


Lemma habits_toggleHabit (c : Clock) (s : State N) :
  habits (toggleHabit c id s)
    = fst (mapRewarding (toggleHabitEntry (dateString c) id) (habits s) (rewards s)).
Proof.
  unfold toggleHabit.
  destruct (mapRewarding (toggleHabitEntry (dateString c) id) (habits s) (rewards s));
    reflexivity.
Qed.

Lemma rewards_toggleHabit (c : Clock) (s : State N) :
  rewards (toggleHabit c id s)
    = snd (mapRewarding (toggleHabitEntry (dateString c) id) (habits s) (rewards s)).
Proof.
  unfold toggleHabit.
  destruct (mapRewarding (toggleHabitEntry (dateString c) id) (habits s) (rewards s));
    reflexivity.
Qed.

Lemma toggleHabit_ids (c : Clock) (s : State N) :
  dateString c = today ->
  map h_id (habits (toggleHabit c id s)) = map h_id (habits s).
Proof.
  intros Hc. rewrite habits_toggleHabit, Hc. apply mapRewarding_toggleHabit_ids.
Qed.



End HabitFacts.







(** ** To-dos *)

Section TodoFacts.
Context {N : Type}.
Variable id : Z.

Lemma toggleTodoEntry_fst (u : Todo) (r : Z) :
  fst (toggleTodoEntry id u r) = flipIfId id u.
Proof.
  unfold toggleTodoEntry, flipIfId.
  destruct (t_id u =? id), (t_completed u); reflexivity.
Qed.

Lemma toggleTodoEntry_other (u : Todo) (r : Z) :
  t_id u <> id -> toggleTodoEntry id u r = (u, r).
Proof.
  intros Hne. unfold toggleTodoEntry.
  destruct (Z.eqb_spec (t_id u) id); [contradiction|reflexivity].
Qed.

Lemma todos_toggleTodo (s : State N) :
  todos (toggleTodo id s) = map (flipIfId id) (todos s).
Proof.
  unfold toggleTodo.
  rewrite <- (mapRewarding_pure (f := toggleTodoEntry id) (todos s) (rewards s)
                toggleTodoEntry_fst).
  destruct (mapRewarding (toggleTodoEntry id) (todos s) (rewards s)); reflexivity.
Qed.

Lemma rewards_toggleTodo (s : State N) :
  rewards (toggleTodo id s)
    = snd (mapRewarding (toggleTodoEntry id) (todos s) (rewards s)).
Proof.
  unfold toggleTodo.
  destruct (mapRewarding (toggleTodoEntry id) (todos s) (rewards s)); reflexivity.
Qed.

Lemma mapRewarding_toggleTodo_absent (ts : list Todo) (r : Z) :
  ~ In id (map t_id ts) ->
  mapRewarding (toggleTodoEntry id) ts r = (ts, r).
Proof.
  intros Hnot. apply mapRewarding_fixed.
  intros u r0 Hin. apply toggleTodoEntry_other.
  intro E. apply Hnot. rewrite <- E. now apply in_map.
Qed.



End TodoFacts.




(** ** Loans *)

Section LoanFacts.
Context {N : Type}.

Lemma toggleLoanEntry_other (nowIso : string) (id : Z) (l : Loan N) :
  l_id l <> id -> toggleLoanEntry nowIso id l = l.
Proof.
  intros Hne. unfold toggleLoanEntry.
  destruct (Z.eqb_spec (l_id l) id); [contradiction|reflexivity].
Qed.

Lemma toggleLoanEntry_id (nowIso : string) (id : Z) (l : Loan N) :
  l_id (toggleLoanEntry nowIso id l) = l_id l.
Proof. unfold toggleLoanEntry. destruct (l_id l =? id); reflexivity. Qed.







End LoanFacts.



(** ** Absent ids *)

(** C10.  When no entity of the targeted collection carries the id,
    [toggleHabit], [toggleTodo], [toggleLoanReturn] and [deleteItem] return
    the state they were given: that collection, every other collection and
    the reward counter are unchanged.  The four are total functions, so no
    error is raised. *)
Theorem absent_id_frame (N : Type) (c : Clock) (id : Z) (s : State N) :
  (~ In id (map h_id (habits s)) -> toggleHabit c id s = s) /\
  (~ In id (map t_id (todos s)) -> toggleTodo id s = s) /\
  (~ In id (map (@l_id N) (loans s)) -> toggleLoanReturn c id s = s) /\
  (forall type ids, targetedIds type s = Some ids -> ~ In id ids ->
     deleteItem type id s = s).
Proof.
  repeat split.
  - intros Hnot. unfold toggleHabit.
    rewrite mapRewarding_toggleHabit_absent by exact Hnot.
    unfold setRewards, setHabits; simpl. apply state_eta.
  - intros Hnot. unfold toggleTodo.
    rewrite mapRewarding_toggleTodo_absent by exact Hnot.
    unfold setRewards, setTodos; simpl. apply state_eta.
  - intros Hnot. unfold toggleLoanReturn, setLoans.
    rewrite map_fixed; [apply state_eta|].
    intros l Hl. apply toggleLoanEntry_other.
    intro E. apply Hnot. rewrite <- E. now apply in_map.
  - intros type ids Hids Hnot. unfold targetedIds in Hids. unfold deleteItem.
    repeat match goal with
           | H : context [if String.eqb ?a ?b then _ else _] |- _ =>
               destruct (String.eqb a b)
           end; try discriminate;
      injection Hids as <-;
      unfold setHabits, setTodos, setExpenses, setNotes, setMemories, setLoans,
             setSleepSessions;
      rewrite removeById_absent by exact Hnot; apply state_eta.
Qed.

(** ** Ids and the clock *)

Lemma map_getId_removeById (A : Type) (H : HasId A) (id : Z) (xs : list A) :
  map getId (removeById id xs) = filter (fun i => negb (i =? id)) (map getId xs).
Proof.
  unfold removeById; induction xs as [|x xs IH]; simpl.
  - reflexivity.
  - destruct (getId x =? id); simpl; now rewrite IH.
Qed.

Lemma Forall2_refl_on (A : Type) (Q : A -> A -> Prop) (xs : list A) :
  (forall x, Q x x) -> Forall2 Q xs xs.
Proof. intros Hq; induction xs; constructor; auto. Qed.

Lemma Forall_Forall2_step (A : Type) (P P' : A -> Prop) (Q : A -> A -> Prop)
    (xs ys : list A) :
  (forall x y, P x -> Q x y -> P' y) ->
  Forall P xs -> Forall2 Q xs ys -> Forall P' ys.
Proof.
  intros Hstep Hp Hq; induction Hq as [|x y xs ys Hxy Hq IH]; constructor.
  - apply (Hstep x y); [now inversion Hp|exact Hxy].
  - apply IH. now inversion Hp.
Qed.

Section IdEvolution.
Context {N : Type}.

Lemma evolves_same (t : Z) (ids : list Z) : evolves t ids ids.
Proof. now left. Qed.

Lemma map_id_uploadTodoPhoto (id : Z) (dataUrl : string) (ts : list Todo) :
  map t_id (map (fun t =>
    if t_id t =? id
    then mkTodo (t_id t) (t_task t) (t_completed t) (Value dataUrl) (t_createdAt t)
    else t) ts) = map t_id ts.
Proof.
  rewrite map_map. apply map_ext. intros t. now destruct (t_id t =? id).
Qed.

Lemma map_id_flipIfId (id : Z) (ts : list Todo) :
  map t_id (map (flipIfId id) ts) = map t_id ts.
Proof.
  rewrite map_map. apply map_ext. intros t. unfold flipIfId.
  now destruct (t_id t =? id).
Qed.

Lemma map_id_toggleLoanEntry (nowIso : string) (id : Z) (ls : list (Loan N)) :
  map (@l_id N) (map (toggleLoanEntry nowIso id) ls) = map (@l_id N) ls.
Proof.
  rewrite map_map. apply map_ext. intros l. apply toggleLoanEntry_id.
Qed.

Lemma allIds_deleteItem (type : string) (id : Z) (t : Z) (s : State N) :
  Forall2 (evolves t) (allIds s) (allIds (deleteItem type id s)).
Proof.
  unfold deleteItem.
  repeat match goal with
         | |- context [if String.eqb ?a ?b then _ else _] => destruct (String.eqb a b)
         end;
    unfold allIds; simpl;
    repeat (constructor;
            [first [ apply evolves_same
                   | right; right; eexists; apply map_getId_removeById ]|]);
    constructor.
Qed.

(** Every action changes the ids of each collection in one of the three
    ways of [evolves]. *)
Lemma allIds_step (c : Clock) (a : Action N) (s : State N) :
  Forall2 (evolves (dateNow c)) (allIds s) (allIds (step c a s)).
Proof.
  destruct a; simpl;
    try solve [ unfold allIds, getId; simpl; rewrite ?map_app; simpl;
                repeat (constructor;
                        [first [ apply evolves_same | right; left; reflexivity ]|]);
                constructor ].
  - (* toggleHabit *)
    pose proof (@toggleHabit_ids N (dateString c) id c s eq_refl) as Hids.
    unfold allIds, getId, Habit_HasId. rewrite Hids.
    unfold toggleHabit.
    destruct (mapRewarding (toggleHabitEntry (dateString c) id) (habits s) (rewards s)).
    simpl. apply Forall2_refl_on. apply evolves_same.
  - (* toggleTodo *)
    pose proof (map_id_flipIfId id (todos s)) as Hids.
    rewrite <- todos_toggleTodo in Hids.
    unfold allIds, getId, Todo_HasId. rewrite Hids.
    unfold toggleTodo.
    destruct (mapRewarding (toggleTodoEntry id) (todos s) (rewards s)).
    simpl. apply Forall2_refl_on. apply evolves_same.
  - (* uploadTodoPhoto *)
    unfold allIds, getId, Todo_HasId, uploadTodoPhoto, setTodos; simpl.
    rewrite map_id_uploadTodoPhoto.
    apply Forall2_refl_on. apply evolves_same.
  - (* toggleLoanReturn *)
    unfold allIds, getId, Loan_HasId, toggleLoanReturn, setLoans; simpl.
    rewrite map_id_toggleLoanEntry.
    apply Forall2_refl_on. apply evolves_same.
  - (* deleteItem *)
    apply allIds_deleteItem.
Qed.

End IdEvolution.

Section SortedIds.
Context {N : Type}.
Variable R : Z -> Z -> Prop.

Lemma sorted_snoc (ids : list Z) (t : Z) :
  StronglySorted R ids -> Forall (fun i => R i t) ids ->
  StronglySorted R (ids ++ [t]).
Proof.
  induction ids as [|i ids IH]; simpl; intros Hs Hb.
  - repeat constructor.
  - inversion Hs as [|? ? Hs' Hi]; subst. inversion Hb as [|? ? Hit Hb']; subst.
    constructor; [now apply IH|].
    apply Forall_app. split; [exact Hi|]. now repeat constructor.
Qed.

Lemma sorted_filter (p : Z -> bool) (ids : list Z) :
  StronglySorted R ids -> StronglySorted R (filter p ids).
Proof.
  induction ids as [|i ids IH]; simpl; intros Hs.
  - constructor.
  - inversion Hs as [|? ? Hs' Hi]; subst.
    destruct (p i); [|now apply IH].
    constructor; [now apply IH|].
    apply Forall_forall. intros j Hj. apply filter_In in Hj as [Hj _].
    exact (proj1 (Forall_forall _ _) Hi j Hj).
Qed.

Lemma evolves_below (t : Z) (future : list Z) (ids ids' : list Z) :
  Forall (R t) future ->
  below R (t :: future) ids -> evolves t ids ids' -> below R future ids'.
Proof.
  intros Ht [Hs Hb] Hev.
  assert (Hb' : Forall (fun i => Forall (R i) future) ids).
  { apply Forall_forall. intros i Hi.
    pose proof (proj1 (Forall_forall _ _) Hb i Hi) as Hall. now inversion Hall. }
  assert (Hbt : Forall (fun i => R i t) ids).
  { apply Forall_forall. intros i Hi.
    pose proof (proj1 (Forall_forall _ _) Hb i Hi) as Hall. now inversion Hall. }
  destruct Hev as [-> | [-> | [p ->]]].
  - split; assumption.
  - split; [now apply sorted_snoc|].
    apply Forall_app. split; [exact Hb'|]. now repeat constructor.
  - split; [now apply sorted_filter|].
    apply Forall_forall. intros i Hi. apply filter_In in Hi as [Hi _].
    exact (proj1 (Forall_forall _ _) Hb' i Hi).
Qed.

Lemma run_sorted (events : list (Clock * Action N)) (s : State N) :
  StronglySorted R (map (fun e => dateNow (fst e)) events) ->
  Forall (below R (map (fun e => dateNow (fst e)) events)) (allIds s) ->
  Forall (StronglySorted R) (allIds (run events s)).
Proof.
  revert s; induction events as [|[c a] events IH]; intros s Hclock Hinv; simpl.
  - apply Forall_forall. intros ids Hids.
    exact (proj1 (proj1 (Forall_forall _ _) Hinv ids Hids)).
  - simpl in Hclock. inversion Hclock as [|? ? Hclock' Hc]; subst.
    apply IH; [exact Hclock'|].
    apply (Forall_Forall2_step
             (P := below R (dateNow c :: map (fun e => dateNow (fst e)) events))
             (Q := evolves (dateNow c))
             (xs := allIds s)); [|exact Hinv|apply allIds_step].
    intros x y Hx Hxy. now apply (evolves_below Hc Hx).
Qed.

Lemma run_sorted_initial (events : list (Clock * Action N)) :
  StronglySorted R (map (fun e => dateNow (fst e)) events) ->
  Forall (StronglySorted R) (allIds (run events (initialState N))).
Proof.
  intros Hclock. apply run_sorted; [exact Hclock|].
  unfold allIds; simpl. repeat constructor.
Qed.

End SortedIds.

Lemma sorted_lt_NoDup (ids : list Z) : StronglySorted Z.lt ids -> NoDup ids.
Proof.
  induction 1 as [|i ids Hs IH Hi]; constructor; [|exact IH].
  intro Hin. pose proof (proj1 (Forall_forall _ _) Hi i Hin). lia.
Qed.

(** C9, as the code has it.  When the clock readings of a session are
    strictly increasing (no two actions read the same millisecond), the ids
    of every collection are strictly increasing in collection order, which
    is creation order, and therefore unique.  When the readings only never
    decrease, the ids of every collection never decrease in collection
    order. *)
Theorem ids_follow_clock (N : Type) (events : list (Clock * Action N)) :
  (clockStrict events ->
     Forall (fun ids => StronglySorted Z.lt ids /\ NoDup ids)
            (allIds (run events (initialState N)))) /\
  (clockMonotone events ->
     Forall (StronglySorted Z.le) (allIds (run events (initialState N)))).
Proof.
  split; intros Hclock.
  - apply Forall_forall. intros ids Hids.
    pose proof (proj1 (Forall_forall _ _) (run_sorted_initial Hclock) ids Hids) as Hs.
    split; [exact Hs|now apply sorted_lt_NoDup].
  - now apply run_sorted_initial.
Qed.

(** C9 as stated fails: two habits added while the clock, which never
    decreases, reads the same millisecond carry the same id. *)
Lemma duplicate_ids_in_one_millisecond :
  clockMonotone sameMillisecond /\
  Forall (fun a => isAdd (snd a) = true) sameMillisecond /\
  map h_id (habits (run sameMillisecond (initialState float))) = [1000; 1000] /\
  ~ NoDup (map h_id (habits (run sameMillisecond (initialState float)))).
Proof.
  split; [|split; [|split]].
  - unfold clockMonotone; simpl. repeat constructor; lia.
  - repeat constructor.
  - reflexivity.
  - simpl. intro Hnd. inversion Hnd as [|? ? Hnot _]; subst.
    apply Hnot. now left.
Qed.

Lemma ids_follow_clock_witness :
  clockStrict oneApart /\
  Forall (fun ids => StronglySorted Z.lt ids /\ NoDup ids)
         (allIds (run oneApart (initialState float))).
Proof.
  assert (Hclock : clockStrict oneApart)
    by (unfold clockStrict; simpl; repeat constructor; lia).
  split; [exact Hclock|].
  exact (proj1 (@ids_follow_clock float oneApart) Hclock).
Defined.

(** ** Loan totals *)

Section ExactArithmetic.
Context {N : Type} {num : Number N}.
Hypothesis add_assoc : forall x y z : N, num_add (num_add x y) z = num_add x (num_add y z).
Hypothesis add_comm : forall x y : N, num_add x y = num_add y x.
Hypothesis add_zero : forall x : N, num_add num_zero x = x.
Hypothesis sub_add : forall x y : N, num_sub (num_add x y) y = x.

Lemma fold_sum_acc (A : Type) (f : A -> N) (xs : list A) (a : N) :
  fold_left (fun sum x => num_add sum (f x)) xs a = num_add a (sumOf f xs).
Proof.
  unfold sumOf. revert a; induction xs as [|x xs IH]; intros a; simpl.
  - now rewrite add_comm, add_zero.
  - rewrite IH, (IH (num_add num_zero (f x))), add_zero. apply add_assoc.
Qed.

Lemma sumOf_cons (A : Type) (f : A -> N) (x : A) (xs : list A) :
  sumOf f (x :: xs) = num_add (f x) (sumOf f xs).
Proof.
  unfold sumOf at 1; simpl. now rewrite fold_sum_acc, add_zero.
Qed.

Lemma sumOf_split (A : Type) (f : A -> N) (p : A -> bool) (xs : list A) :
  sumOf f xs
    = num_add (sumOf f (filter (fun x => negb (p x)) xs)) (sumOf f (filter p xs)).
Proof.
  induction xs as [|x xs IH]; simpl.
  - unfold sumOf; simpl. now rewrite add_zero.
  - rewrite sumOf_cons, IH. destruct (p x); simpl; rewrite sumOf_cons.
    + rewrite <- add_assoc,
        (add_comm (f x) (sumOf f (filter (fun x0 => negb (p x0)) xs))).
      apply add_assoc.
    + now rewrite add_assoc.
Qed.

Lemma pending_exact (s : State N) :
  pendingLoansAmount s = pendingAmount (loans s).
Proof.
  unfold pendingLoansAmount, pendingAmount, totalLent, totalReturned.
  rewrite (sumOf_split (@l_amount N) (@l_returned N) (loans s)).
  now rewrite sub_add.
Qed.

End ExactArithmetic.

(** C4, as the code has it.  In an arithmetic of amounts that is exact
    (addition associative and commutative with 0 neutral, and subtraction
    undoing addition, as on integers), [pendingLoansAmount], the sum of the
    amounts of the loans not returned, equals [totalLent] minus
    [totalReturned], for every state and so for every collection reached by
    [addLoan] and [toggleLoanReturn] calls.  The two figures are computed by
    different summations, which binary64 rounding can tell apart. *)
Theorem pending_is_lent_minus_returned (N : Type) (num : Number N) :
  (forall x y z : N, num_add (num_add x y) z = num_add x (num_add y z)) ->
  (forall x y : N, num_add x y = num_add y x) ->
  (forall x : N, num_add num_zero x = x) ->
  (forall x y : N, num_sub (num_add x y) y = x) ->
  (forall s : State N,
     pendingLoansAmount s = num_sub (totalLent (loans s)) (totalReturned (loans s))) /\
  (forall events : list (Clock * Action N),
     pendingLoansAmount (run events (initialState N))
       = num_sub (totalLent (loans (run events (initialState N))))
                 (totalReturned (loans (run events (initialState N))))).
Proof.
  intros Hassoc Hcomm Hzero Hsub.
  split; intros; now apply pending_exact.
Qed.

Lemma pending_is_lent_minus_returned_witness :
  pendingLoansAmount (run wholeLoans (initialState Z)) = 75 /\
  pendingLoansAmount (run wholeLoans (initialState Z))
    = num_sub (totalLent (loans (run wholeLoans (initialState Z))))
              (totalReturned (loans (run wholeLoans (initialState Z)))).
Proof.
  split; [reflexivity|].
  apply (proj2 (@pending_is_lent_minus_returned Z exact_Number
                  (fun x y z => eq_sym (Z.add_assoc x y z))
                  Z.add_comm Z.add_0_l Z.add_simpl_r)).
Defined.

(** C4 as stated fails in the arithmetic the program runs with: after lending
    0.1, 0.2 and 0.3 and marking the first loan returned, the sum of the
    pending amounts is 0.5 while total lent minus total returned is
    0.5000000000000001. *)
Lemma pending_differs_in_binary64 :
  Forall (fun e => isLoanAction (snd e) = true) threeLoans /\
  pendingLoansAmount (run threeLoans (initialState float)) = 0.5%float /\
  num_sub (totalLent (loans (run threeLoans (initialState float))))
          (totalReturned (loans (run threeLoans (initialState float))))
    = 0x1.0000000000001p-1%float /\
  pendingLoansAmount (run threeLoans (initialState float))
    <> num_sub (totalLent (loans (run threeLoans (initialState float))))
               (totalReturned (loans (run threeLoans (initialState float)))).
Proof.
  split; [repeat constructor|].
  split; [vm_compute; reflexivity|].
  split; [vm_compute; reflexivity|].
  vm_compute. intro H. discriminate H.
Qed.

(** ** The 7-day chart *)

Section ChartFacts.
Context {N : Type} {num : Number N}.
Variable Date : Type.
Variable getDate : Date -> Z.
Variable setDate : Date -> Z -> Date.
Variable toDateString : Date -> string.
Variable toLocaleDateString : Date -> string.
Variable parseDate : string -> Date.

Lemma count_by_fold (A : Type) (p : A -> bool) (xs : list A) (a : nat) :
  fold_left (fun sum x => (sum + (if p x then 1 else 0))%nat) xs a
    = (a + List.length (filter p xs))%nat.
Proof.
  revert a; induction xs as [|x xs IH]; intros a; simpl.
  - lia.
  - rewrite IH. destruct (p x); simpl; lia.
Qed.

(** The loop body computes the record of the day [i] days back. *)
Lemma chartPoint_is_dayRecord (now : Date) (s : State N) (i : Z) :
  chartPoint getDate setDate toDateString toLocaleDateString parseDate now s i
    = dayRecord_spec toDateString toLocaleDateString parseDate
        (setDate now (getDate now - i)) s.
Proof.
  unfold chartPoint, dayRecord_spec. cbv zeta.
  now rewrite count_by_fold.
Qed.

Lemma getChartData_unrolled (now : Date) (s : State N) :
  getChartData getDate setDate toDateString toLocaleDateString parseDate now s
    = map (chartPoint getDate setDate toDateString toLocaleDateString parseDate now s)
          [6; 5; 4; 3; 2; 1; 0].
Proof. reflexivity. Qed.

End ChartFacts.

(** [reduce] with a projection is the left fold of addition over the
    projected values, from 0. *)
Lemma fold_sum_as_fold_map (N : Type) (num : Number N) (A : Type) (f : A -> N)
    (xs : list A) (a : N) :
  fold_left (fun sum x => num_add sum (f x)) xs a = fold_left num_add (map f xs) a.
Proof.
  revert a; induction xs as [|x xs IH]; intros a; simpl; [reflexivity|apply IH].
Qed.

Lemma sumOf_as_fold_map (N : Type) (num : Number N) (A : Type) (f : A -> N)
    (xs : list A) :
  sumOf f xs = fold_left num_add (map f xs) num_zero.
Proof. apply fold_sum_as_fold_map. Qed.



(** ** Export and import *)

Section SnapshotFacts.
Import Snapshot.

Lemma store_eta (s : Store) :
  mkStore (habits s) (todos s) (expenses s) (notes s) (memories s) (loans s)
          (rewards s) (sleepSessions s) = s.
Proof. destruct s; reflexivity. Qed.

(** Each piece of state ends up as [merged] says, whatever the other keys
    of the document are. *)
Lemma setAllData_merged (newData : value) (s : Store) :
  setAllData newData s
    = mkStore (merged newData "habits" (habits s))
              (merged newData "todos" (todos s))
              (merged newData "expenses" (expenses s))
              (merged newData "notes" (notes s))
              (merged newData "memories" (memories s))
              (merged newData "loans" (loans s))
              (merged newData "rewards" (rewards s))
              (merged newData "sleepSessions" (sleepSessions s)).
Proof.
  unfold setAllData, setIfTruthy, merged.
  destruct s as [h t e n m l r z]; simpl.
  destruct (getProp newData "habits") as [v1|]; [destruct (truthy v1)|];
  destruct (getProp newData "todos") as [v2|]; try destruct (truthy v2);
  destruct (getProp newData "expenses") as [v3|]; try destruct (truthy v3);
  destruct (getProp newData "notes") as [v4|]; try destruct (truthy v4);
  destruct (getProp newData "memories") as [v5|]; try destruct (truthy v5);
  destruct (getProp newData "loans") as [v6|]; try destruct (truthy v6);
  destruct (getProp newData "rewards") as [v7|]; try destruct (truthy v7);
  destruct (getProp newData "sleepSessions") as [v8|]; try destruct (truthy v8);
  reflexivity.
Qed.

Lemma setAllData_array (items : list value) (s : Store) :
  setAllData (JArray items) s = s.
Proof. rewrite setAllData_merged. unfold merged; simpl. apply store_eta. Qed.

End SnapshotFacts.

(** C2, as the code has it.  [setAllData] replaces exactly the pieces of
    state whose key holds a truthy value in the document (a value other than
    [null], [false], [0], [NaN] and the empty string) by that value, each
    independently of the other keys, and leaves unchanged every piece whose
    key is absent or holds a falsy value.  In particular importing the
    document [{ rewards: 500 }] changes the reward counter and nothing
    else. *)
Theorem setAllData_replaces_truthy_keys (newData : Snapshot.value) (s : Snapshot.Store) :
  Snapshot.setAllData newData s
    = Snapshot.mkStore
        (Snapshot.merged newData "habits" (Snapshot.habits s))
        (Snapshot.merged newData "todos" (Snapshot.todos s))
        (Snapshot.merged newData "expenses" (Snapshot.expenses s))
        (Snapshot.merged newData "notes" (Snapshot.notes s))
        (Snapshot.merged newData "memories" (Snapshot.memories s))
        (Snapshot.merged newData "loans" (Snapshot.loans s))
        (Snapshot.merged newData "rewards" (Snapshot.rewards s))
        (Snapshot.merged newData "sleepSessions" (Snapshot.sleepSessions s)) /\
  (forall key old v,
     Snapshot.getProp newData key = Some v -> Snapshot.truthy v = true ->
     Snapshot.merged newData key old = v) /\
  (forall key old v,
     Snapshot.getProp newData key = Some v -> Snapshot.truthy v = false ->
     Snapshot.merged newData key old = old) /\
  (forall key old,
     Snapshot.getProp newData key = None -> Snapshot.merged newData key old = old) /\
  Snapshot.setAllData onlyRewards500 s
    = Snapshot.setRewards (Snapshot.JNumber 500%float) s.
Proof.
  split; [apply setAllData_merged|].
  unfold Snapshot.merged.
  split; [intros key old v -> ->; reflexivity|].
  split; [intros key old v -> ->; reflexivity|].
  split; [intros key old ->; reflexivity|].
  rewrite setAllData_merged. reflexivity.
Qed.

Lemma setAllData_replaces_truthy_keys_witness :
  Snapshot.getProp onlyRewards500 "rewards" = Some (Snapshot.JNumber 500%float) /\
  Snapshot.merged onlyRewards500 "rewards" (Snapshot.JNumber 50%float)
    = Snapshot.JNumber 500%float.
Proof.
  assert (Hget : Snapshot.getProp onlyRewards500 "rewards"
                 = Some (Snapshot.JNumber 500%float)) by reflexivity.
  split; [exact Hget|].
  exact (proj1 (proj2 (setAllData_replaces_truthy_keys onlyRewards500 (emptyStore 50)))
           "rewards" (Snapshot.JNumber 50%float) (Snapshot.JNumber 500%float)
           Hget eq_refl).
Defined.

(** C2 as stated fails: the document [{ rewards: 0 }] has the key [rewards],
    yet importing it leaves a reward counter of 50 at 50. *)
Lemma rewards_zero_is_not_imported :
  Snapshot.getProp onlyRewards0 "rewards" = Some (Snapshot.JNumber 0%float) /\
  Snapshot.rewards (Snapshot.setAllData onlyRewards0 (emptyStore 50))
    = Snapshot.JNumber 50%float /\
  Snapshot.rewards (Snapshot.setAllData onlyRewards0 (emptyStore 50))
    <> Snapshot.JNumber 0%float.
Proof.
  split; [reflexivity|]. split; [reflexivity|].
  intro H. apply (f_equal Snapshot.truthy) in H. vm_compute in H. discriminate H.
Qed.

(** C5, as the code has it.  Let the backup text of a state whose
    collections are arrays parse back to the exported document (the data is
    serializable).  Importing it into any state [p] succeeds and yields the
    exported collections, with the exported reward counter when that is
    truthy and the counter of [p] when it is not (a counter of 0 is not
    imported).  So the import reproduces the exported state whenever its
    reward counter is not 0, and also whenever [p] already holds the
    exported counter. *)
Theorem import_export_roundtrip (JSON_stringify : Snapshot.value -> string)
    (JSON_parse : string -> option Snapshot.value)
    (s p : Snapshot.Store) (exportDate : string) :
  JSON_parse (Snapshot.exportData JSON_stringify (Snapshot.allData s exportDate))
    = Some (Snapshot.allData s exportDate) ->
  Snapshot.collectionsAreArrays s = true ->
  Snapshot.importData JSON_parse
      (Snapshot.exportData JSON_stringify (Snapshot.allData s exportDate)) p
    = (Snapshot.setRewards
         (if Snapshot.truthy (Snapshot.rewards s)
          then Snapshot.rewards s else Snapshot.rewards p) s,
       Snapshot.importSucceeded) /\
  (Snapshot.truthy (Snapshot.rewards s) = true ->
   Snapshot.importData JSON_parse
       (Snapshot.exportData JSON_stringify (Snapshot.allData s exportDate)) p
     = (s, Snapshot.importSucceeded)) /\
  (Snapshot.rewards p = Snapshot.rewards s ->
   Snapshot.importData JSON_parse
       (Snapshot.exportData JSON_stringify (Snapshot.allData s exportDate)) p
     = (s, Snapshot.importSucceeded)).
Proof.
  intros Hparse Harr.
  assert (Hgen : Snapshot.importData JSON_parse
      (Snapshot.exportData JSON_stringify (Snapshot.allData s exportDate)) p
    = (Snapshot.setRewards
         (if Snapshot.truthy (Snapshot.rewards s)
          then Snapshot.rewards s else Snapshot.rewards p) s,
       Snapshot.importSucceeded)).
  { unfold Snapshot.importData. rewrite Hparse. cbn [Snapshot.allData Snapshot.typeof
      Snapshot.isNull String.eqb Ascii.eqb Bool.eqb negb orb].
    f_equal. rewrite setAllData_merged.
    unfold Snapshot.collectionsAreArrays in Harr.
    repeat (apply andb_true_iff in Harr as [Harr ?]).
    destruct s as [h t e n m l r z]; simpl in *.
    destruct h; try discriminate. destruct t; try discriminate.
    destruct e; try discriminate. destruct n; try discriminate.
    destruct m; try discriminate. destruct l; try discriminate.
    destruct z; try discriminate.
    unfold Snapshot.merged, Snapshot.setRewards; simpl.
    reflexivity. }
  split; [exact Hgen|]. split.
  - intros Htruthy. rewrite Hgen, Htruthy.
    unfold Snapshot.setRewards. now rewrite store_eta.
  - intros Hsame. rewrite Hgen, Hsame.
    destruct (Snapshot.truthy (Snapshot.rewards s));
      unfold Snapshot.setRewards; now rewrite store_eta.
Qed.

Lemma import_export_roundtrip_witness :
  readBackup 7 (Snapshot.exportData writeBackup
                  (Snapshot.allData (emptyStore 7) "2024-01-01T09:00:00.000Z"))
    = Some (Snapshot.allData (emptyStore 7) "2024-01-01T09:00:00.000Z") /\
  Snapshot.importData (readBackup 7)
      (Snapshot.exportData writeBackup
         (Snapshot.allData (emptyStore 7) "2024-01-01T09:00:00.000Z"))
      (emptyStore 50)
    = (emptyStore 7, Snapshot.importSucceeded).
Proof.
  assert (Hparse : readBackup 7 (Snapshot.exportData writeBackup
                     (Snapshot.allData (emptyStore 7) "2024-01-01T09:00:00.000Z"))
                   = Some (Snapshot.allData (emptyStore 7) "2024-01-01T09:00:00.000Z"))
    by reflexivity.
  split; [exact Hparse|].
  exact (proj1 (proj2 (@import_export_roundtrip writeBackup (readBackup 7)
                         (emptyStore 7) (emptyStore 50) "2024-01-01T09:00:00.000Z"
                         Hparse eq_refl)) eq_refl).
Defined.

(** C5 as stated fails: a state with a reward counter of 0 is exported, its
    backup parses back to the exported document, and importing it into a
    state whose counter is 50 leaves the counter at 50. *)
Lemma roundtrip_keeps_old_rewards_on_zero :
  readBackup 0 (Snapshot.exportData writeBackup
                  (Snapshot.allData (emptyStore 0) "2024-01-01T09:00:00.000Z"))
    = Some (Snapshot.allData (emptyStore 0) "2024-01-01T09:00:00.000Z") /\
  Snapshot.collectionsAreArrays (emptyStore 0) = true /\
  fst (Snapshot.importData (readBackup 0)
         (Snapshot.exportData writeBackup
            (Snapshot.allData (emptyStore 0) "2024-01-01T09:00:00.000Z"))
         (emptyStore 50))
    = emptyStore 50 /\
  Snapshot.rewards (emptyStore 50) <> Snapshot.rewards (emptyStore 0).
Proof.
  split; [reflexivity|]. split; [reflexivity|]. split; [reflexivity|].
  intro H. apply (f_equal Snapshot.truthy) in H. vm_compute in H. discriminate H.
Qed.

(** C7, as the code has it.  An import input that does not parse, or that
    parses to [null], a boolean, a number or a string, raises the error
    notice and leaves every collection and the reward counter as they were.
    A document that is an array is not rejected: it passes the [typeof]
    check, the import reports success, and the state is left as it was. *)
Theorem importData_rejects_malformed (JSON_parse : string -> option Snapshot.value)
    (text : string) (s : Snapshot.Store) :
  (JSON_parse text = None ->
   Snapshot.importData JSON_parse text s = (s, Snapshot.importFailed)) /\
  (forall v, JSON_parse text = Some v ->
     Snapshot.isJsonObject v = false -> Snapshot.isArray v = false ->
     Snapshot.importData JSON_parse text s = (s, Snapshot.importFailed)) /\
  (forall items, JSON_parse text = Some (Snapshot.JArray items) ->
     Snapshot.importData JSON_parse text s = (s, Snapshot.importSucceeded)).
Proof.
  unfold Snapshot.importData. repeat split.
  - intros ->. reflexivity.
  - intros v -> Hobj Harr. destruct v; try discriminate; reflexivity.
  - intros items ->. simpl. now rewrite setAllData_array.
Qed.

Lemma importData_rejects_malformed_witness :
  parseSample "not json" = None /\
  Snapshot.importData parseSample "not json" (emptyStore 50)
    = (emptyStore 50, Snapshot.importFailed).
Proof.
  assert (Hparse : parseSample "not json" = None) by reflexivity.
  split; [exact Hparse|].
  exact (proj1 (importData_rejects_malformed parseSample "not json" (emptyStore 50))
           Hparse).
Defined.

(** C7 as stated fails: the text [[]] parses to an array, which is not an
    object of the document format, and the import reports success instead of
    the error notice. *)
Lemma array_import_reports_success :
  parseSample "[]" = Some (Snapshot.JArray []) /\
  Snapshot.isJsonObject (Snapshot.JArray []) = false /\
  Snapshot.importData parseSample "[]" (emptyStore 50)
    = (emptyStore 50, Snapshot.importSucceeded) /\
  Snapshot.importData parseSample "[]" (emptyStore 50)
    <> (emptyStore 50, Snapshot.importFailed).
Proof.
  split; [reflexivity|]. split; [reflexivity|]. split; [reflexivity|].
  intro H. discriminate H.
Qed.

(** ** The theorems at sample inputs *)




Lemma absent_id_frame_witness :
  ~ In 7 (map h_id (habits oneHabit)) /\
  toggleHabit (mondayAt 2000) 7 oneHabit = oneHabit.
Proof.
  assert (Hnot : ~ In 7 (map h_id (habits oneHabit)))
    by (simpl; intros [H|[]]; discriminate H).
  split; [exact Hnot|].
  exact (proj1 (@absent_id_frame float (mondayAt 2000) 7 oneHabit) Hnot).
Defined.

(** ** Scenarios of the specification, evaluated *)

(** Add a habit, toggle it once: the date is recorded and 10 points are
    paid; toggle again the same day: the date is removed, the points stay. *)
Example habit_scenario :
  let s1 := toggleHabit (mondayAt 2000) 1000 oneHabit in
  let s2 := toggleHabit (mondayAt 3000) 1000 s1 in
  map h_completedDates (habits s1) = [Value ["Mon Jan 01 2024"]] /\
  rewards s1 = 10 /\
  map h_completedDates (habits s2) = [Value []] /\
  rewards s2 = 10.
Proof. repeat split. Qed.

(** Lend 100 to Sam: 100 is pending; mark it returned: nothing is pending
    and the return is dated; toggle again: 100 is pending, the date is
    [null]. *)
Example loan_scenario :
  let s1 := toggleLoanReturn (mondayAt 2000) 1000 samLoan in
  let s2 := toggleLoanReturn (mondayAt 3000) 1000 s1 in
  pendingLoansAmount samLoan = 100%float /\
  map (@l_dateReturned float) (loans samLoan) = [Undefined] /\
  pendingLoansAmount s1 = 0%float /\
  map (@l_dateReturned float) (loans s1) = [Value "2024-01-01T09:00:00.000Z"] /\
  pendingLoansAmount s2 = 100%float /\
  map (@l_dateReturned float) (loans s2) = [Null].
Proof. repeat split. Qed.

Example expense_scenario : totalExpenses twoExpenses = 6.5%float.
Proof. reflexivity. Qed.

(** The chart of [twoDays], read on day 10: days 4 to 10, oldest first. *)
Example chart_scenario :
  let chart := getChartData dayGetDate daySetDate dayText dayText dayOfText 10 twoDays in
  map (@cp_Habits float) chart = [0; 0; 0; 0; 0; 1; 1]%nat /\
  map (@cp_Tasks float) chart = [0; 0; 0; 0; 0; 0; 1]%nat /\
  map (@cp_Expenses float) chart = [0; 0; 0; 0; 0; 2; 0]%float /\
  map (@cp_Sleep float) chart = [0; 0; 0; 0; 0; 0; 7.5]%float /\
  todaySleep dayText dayOfText 10 twoDays = 7.5%float /\
  completedTodosCount twoDays = 1%nat /\
  rewards twoDays = 25.
Proof. repeat split. Qed.

(** A task toggled twice has paid its 5 points once. *)
Example todo_scenario :
  let s1 := toggleTodo 1000 oneTodo in
  let s2 := toggleTodo 1000 s1 in
  map t_completed (todos s1) = [true] /\ rewards s1 = 5 /\
  map t_completed (todos s2) = [false] /\ rewards s2 = 5.
Proof. repeat split. Qed.

(** Why the statements on the reward counter stop at the safe integers:
    from 2^53 on, binary64 no longer holds every integer, and the points of
    a task or of a habit are rounded to 4 and to 8. *)
Example counter_beyond_safe_integers :
  PrimFloat.add 0x1p53%float 5%float = PrimFloat.add 0x1p53%float 4%float /\
  PrimFloat.add 0x1p54%float 10%float = PrimFloat.add 0x1p54%float 8%float /\
  safeInteger (2 ^ 53 - 1) /\
  ~ safeInteger (2 ^ 53).
Proof.
  split; [vm_compute; reflexivity|]. split; [vm_compute; reflexivity|].
  unfold safeInteger. split; lia.
Qed.

(** * Further properties of the mutators *)

Section DeleteFacts.
Context {N : Type}.

Lemma removeById_idempotent (A : Type) (H : HasId A) (id : Z) (xs : list A) :
  removeById id (removeById id xs) = removeById id xs.
Proof.
  unfold removeById; induction xs as [|x xs IH]; simpl.
  - reflexivity.
  - destruct (getId x =? id) eqn:E; simpl; [exact IH|].
    rewrite E; simpl. now rewrite IH.
Qed.

Lemma removeById_snoc_same (A : Type) (H : HasId A) (xs : list A) (x : A) :
  removeById (getId x) (xs ++ [x]) = removeById (getId x) xs.
Proof.
  unfold removeById. rewrite filter_app; simpl.
  rewrite Z.eqb_refl; simpl. apply app_nil_r.
Qed.

Lemma not_in_filtered (id : Z) (ids : list Z) :
  ~ In id (filter (fun i => negb (i =? id)) ids).
Proof.
  intro Hin. apply filter_In in Hin as [_ Hne].
  rewrite Z.eqb_refl in Hne. discriminate.
Qed.

End DeleteFacts.

(** Filtering a collection by id and then wrapping its entities is wrapping
    them and then filtering by id. *)
Lemma map_filter_by (A B : Type) (wrap : A -> B) (p : A -> bool) (q : B -> bool)
    (xs : list A) :
  (forall x, q (wrap x) = p x) ->
  map wrap (filter p xs) = filter q (map wrap xs).
Proof.
  intros Hpq. induction xs as [|x xs IH]; simpl; [reflexivity|].
  rewrite Hpq. destruct (p x); simpl; now rewrite IH.
Qed.

(** X1.  For a type string that names a collection, [deleteItem] removes
    from that collection exactly the entities carrying the id: the entities
    left are those with another id, each with the fields it had, in the
    order they were in.  Every other collection and the reward counter are
    as before, and deleting the same id again changes nothing. *)
Theorem deleteItem_removes_exactly (N : Type) (type : string) (id : Z)
    (s : State N) (items : list (Item N)) :
  targetedItems type s = Some items ->
  targetedItems type (deleteItem type id s)
    = Some (filter (fun it => negb (itemId it =? id)) items) /\
  (forall other, other <> type ->
     targetedItems other (deleteItem type id s) = targetedItems other s) /\
  rewards (deleteItem type id s) = rewards s /\
  clearCollection type (deleteItem type id s) = clearCollection type s /\
  deleteItem type id (deleteItem type id s) = deleteItem type id s.
Proof.
  intros Hitems.
  split; [|split; [|split; [|split]]].
  - unfold targetedItems, deleteItem in *.
    repeat match goal with
           | H : context [if String.eqb ?a ?b then _ else _] |- _ =>
               destruct (String.eqb a b)
           end; try discriminate; injection Hitems as <-; simpl;
      unfold removeById; f_equal; apply map_filter_by.
    all: intros x; reflexivity.
  - intros other Hother. unfold targetedItems, deleteItem in *.
    repeat match goal with
           | H : context [if String.eqb ?a ?b then _ else _] |- _ =>
               destruct (String.eqb_spec a b); [subst|]
           end; try discriminate;
      repeat match goal with
             | |- context [String.eqb other ?b] =>
                 destruct (String.eqb_spec other b); [subst|]
             end; try congruence; reflexivity.
  - unfold targetedItems, deleteItem in *.
    repeat match goal with
           | |- context [if String.eqb ?a ?b then _ else _] =>
               destruct (String.eqb a b)
           end; reflexivity.
  - unfold targetedItems, deleteItem, clearCollection in *.
    repeat match goal with
           | H : context [if String.eqb ?a ?b then _ else _] |- _ =>
               destruct (String.eqb a b)
           end; try discriminate; reflexivity.
  - unfold targetedItems, deleteItem in *.
    repeat match goal with
           | H : context [if String.eqb ?a ?b then _ else _] |- _ =>
               destruct (String.eqb a b)
           end; try discriminate;
      unfold setHabits, setTodos, setExpenses, setNotes, setMemories, setLoans,
             setSleepSessions; simpl;
      rewrite ?removeById_idempotent; reflexivity.
Qed.

Lemma deleteItem_removes_exactly_witness :
  targetedItems "habit" (run oneApart (initialState float))
    = Some [HabitItem (mkHabit 1000 "Read" (Value []) "2024-01-01T09:00:00.000Z");
            HabitItem (mkHabit 1001 "Walk" (Value []) "2024-01-01T09:00:00.000Z")] /\
  targetedItems "habit" (deleteItem "habit" 1000 (run oneApart (initialState float)))
    = Some [HabitItem (mkHabit 1001 "Walk" (Value []) "2024-01-01T09:00:00.000Z")] /\
  targetedItems "todo" (deleteItem "habit" 1000 (run oneApart (initialState float)))
    = Some [TodoItem (mkTodo 1002 "Buy milk" false Null "2024-01-01T09:00:00.000Z")].
Proof.
  assert (Hitems : targetedItems "habit" (run oneApart (initialState float))
            = Some [HabitItem (mkHabit 1000 "Read" (Value []) "2024-01-01T09:00:00.000Z");
                    HabitItem (mkHabit 1001 "Walk" (Value []) "2024-01-01T09:00:00.000Z")])
    by reflexivity.
  assert (Hother : "todo" <> "habit") by discriminate.
  split; [exact Hitems|]. split.
  - exact (proj1 (@deleteItem_removes_exactly float "habit" 1000 _ _ Hitems)).
  - exact (proj1 (proj2 (@deleteItem_removes_exactly float "habit" 1000 _ _ Hitems))
             "todo" Hother).
Defined.

(** X2.  Deleting, by the id just assigned, the entity an add action has
    appended undoes the addition: it gives the state that deleting that id
    would have given before the addition, which is the state before the
    addition itself when no older entity of the collection carries the id. *)
Theorem delete_undoes_add (N : Type) (c : Clock) (a : Action N) (type : string)
    (s : State N) :
  addedType a = Some type ->
  deleteItem type (dateNow c) (step c a s) = deleteItem type (dateNow c) s /\
  (forall ids, targetedIds type s = Some ids -> ~ In (dateNow c) ids ->
     deleteItem type (dateNow c) (step c a s) = s).
Proof.
  intros Htype.
  assert (Hundo : deleteItem type (dateNow c) (step c a s)
                  = deleteItem type (dateNow c) s).
  { destruct a; simpl in Htype; try discriminate; injection Htype as <-;
      unfold deleteItem; simpl;
      unfold setHabits, setTodos, setExpenses, setNotes, setMemories, setLoans,
             setSleepSessions; simpl; f_equal.
    - exact (removeById_snoc_same _ (habits s) (mkHabit (dateNow c) name (Value []) (isoString c))).
    - exact (removeById_snoc_same _ (todos s) (mkTodo (dateNow c) task false Null (isoString c))).
    - exact (removeById_snoc_same _ (expenses s)
               (mkExpense (dateNow c) description amount category (isoString c))).
    - exact (removeById_snoc_same _ (notes s) (mkNote (dateNow c) title content (isoString c))).
    - exact (removeById_snoc_same _ (memories s) (mkMemory (dateNow c) title dataUrl (isoString c))).
    - exact (removeById_snoc_same _ (loans s)
               (mkLoan (dateNow c) personName amount note false (isoString c) Undefined)).
    - exact (removeById_snoc_same _ (sleepSessions s)
               (mkSleepSession (dateNow c) duration isAfternoon (isoString c))). }
  split; [exact Hundo|].
  intros ids Hids Hfresh. rewrite Hundo.
  unfold targetedIds in Hids. unfold deleteItem.
  repeat match goal with
         | H : context [if String.eqb ?a ?b then _ else _] |- _ =>
             destruct (String.eqb a b)
         end; try discriminate;
    injection Hids as <-;
    unfold setHabits, setTodos, setExpenses, setNotes, setMemories, setLoans,
           setSleepSessions;
    rewrite removeById_absent by exact Hfresh; apply state_eta.
Qed.

Lemma delete_undoes_add_witness :
  addedType (AddHabit (N := float) "Walk") = Some "habit" /\
  deleteItem "habit" 2000 (addHabit (mondayAt 2000) "Walk" oneHabit) = oneHabit.
Proof.
  assert (Htype : addedType (AddHabit (N := float) "Walk") = Some "habit")
    by reflexivity.
  split; [exact Htype|].
  apply (proj2 (@delete_undoes_add float (mondayAt 2000) (AddHabit "Walk") "habit"
                  oneHabit Htype) [1000]); [reflexivity|].
  simpl. intros [H|[]]. discriminate H.
Defined.

Section RewardFacts.
Context {N : Type}.

Lemma mapRewarding_monotone (A : Type) (f : A -> Z -> A * Z) (xs : list A) (r : Z) :
  (forall x r0, r0 <= snd (f x r0)) -> r <= snd (mapRewarding f xs r).
Proof.
  intros Hf; revert r; induction xs as [|x xs IH]; intros r; simpl.
  - lia.
  - specialize (Hf x r) as Hx. destruct (f x r) as [x' r1]; simpl in Hx.
    specialize (IH r1). destruct (mapRewarding f xs r1) as [rest r2].
    simpl in *. lia.
Qed.

Lemma toggleHabitEntry_pays (today : string) (id : Z) (h : Habit) (r : Z) :
  r <= snd (toggleHabitEntry today id h r).
Proof.
  unfold toggleHabitEntry.
  destruct (h_id h =? id); [|simpl; lia].
  destruct (includes today (orEmpty (h_completedDates h))); simpl; lia.
Qed.

Lemma toggleTodoEntry_pays (id : Z) (t : Todo) (r : Z) :
  r <= snd (toggleTodoEntry id t r).
Proof.
  unfold toggleTodoEntry.
  destruct ((t_id t =? id) && negb (t_completed t)); simpl; lia.
Qed.

Lemma rewards_deleteItem (type : string) (id : Z) (s : State N) :
  rewards (deleteItem type id s) = rewards s.
Proof.
  unfold deleteItem.
  repeat match goal with
         | |- context [if String.eqb ?a ?b then _ else _] => destruct (String.eqb a b)
         end; reflexivity.
Qed.

Lemma rewards_step_quiet (c : Clock) (a : Action N) (s : State N) :
  paysRewards a = false -> rewards (step c a s) = rewards s.
Proof.
  destruct a; simpl; intros Hq; try discriminate; try reflexivity.
  apply rewards_deleteItem.
Qed.

Lemma rewards_step_monotone (c : Clock) (a : Action N) (s : State N) :
  rewards s <= rewards (step c a s).
Proof.
  destruct (paysRewards a) eqn:Hp.
  - destruct a; simpl in Hp; try discriminate; simpl.
    + rewrite rewards_toggleHabit. apply mapRewarding_monotone.
      intros; apply toggleHabitEntry_pays.
    + rewrite rewards_toggleTodo. apply mapRewarding_monotone.
      intros; apply toggleTodoEntry_pays.
  - rewrite rewards_step_quiet by exact Hp. lia.
Qed.

End RewardFacts.

(** X3.  No sequence of actions lowers the reward counter: un-completing a
    habit or a task refunds nothing and deleting a completed one takes
    nothing back.  The counter moves only in [toggleHabit] and
    [toggleTodo]; a session without these two leaves it as it was. *)
Theorem rewards_never_decrease (N : Type) (events : list (Clock * Action N))
    (s : State N) :
  rewards s <= rewards (run events s) /\
  (Forall (fun e => paysRewards (snd e) = false) events ->
   rewards (run events s) = rewards s).
Proof.
  split.
  - revert s; induction events as [|[c a] events IH]; intros s; simpl.
    + lia.
    + specialize (IH (step c a s)).
      pose proof (@rewards_step_monotone N c a s). lia.
  - revert s; induction events as [|[c a] events IH]; intros s Hq; simpl.
    + reflexivity.
    + apply Forall_cons_iff in Hq as [Ha Hq]. simpl in Ha.
      rewrite IH by exact Hq. now apply rewards_step_quiet.
Qed.

Lemma rewards_never_decrease_witness :
  Forall (fun e => paysRewards (snd e) = false) threeLoans /\
  rewards (run threeLoans oneHabit) = rewards oneHabit.
Proof.
  assert (Hq : Forall (fun e => paysRewards (snd e) = false) threeLoans)
    by (repeat constructor).
  split; [exact Hq|].
  exact (proj2 (@rewards_never_decrease float threeLoans oneHabit) Hq).
Defined.

Section CompletedDatesFacts.
Context {N : Type}.

Lemma includes_false_not_in (x : string) (l : list string) :
  includes x l = false -> ~ In x l.
Proof.
  unfold includes. intros Hf Hin.
  assert (Ht : existsb (String.eqb x) l = true).
  { apply existsb_exists. exists x. split; [exact Hin|apply String.eqb_refl]. }
  rewrite Hf in Ht. discriminate.
Qed.

Lemma NoDup_snoc (A : Type) (l : list A) (x : A) :
  NoDup l -> ~ In x l -> NoDup (l ++ [x]).
Proof.
  induction l as [|y l IH]; simpl; intros Hnd Hx.
  - constructor; [intros []|constructor].
  - inversion Hnd as [|? ? Hy Hnd']; subst. constructor.
    + intro Hin. apply in_app_or in Hin as [Hin|[Hin|[]]]; [now apply Hy|].
      apply Hx. now left.
    + apply IH; [exact Hnd'|]. intro Hin. apply Hx. now right.
Qed.

Lemma toggleHabitEntry_keeps_distinct (today : string) (id : Z) (h : Habit) (r : Z) :
  NoDup (orEmpty (h_completedDates h)) ->
  NoDup (orEmpty (h_completedDates (fst (toggleHabitEntry today id h r)))).
Proof.
  intros Hnd. unfold toggleHabitEntry.
  destruct (h_id h =? id); [|exact Hnd].
  destruct (includes today (orEmpty (h_completedDates h))) eqn:E; simpl.
  - now apply NoDup_filter.
  - apply NoDup_snoc; [exact Hnd|now apply includes_false_not_in].
Qed.

Lemma mapRewarding_Forall (A : Type) (P : A -> Prop) (f : A -> Z -> A * Z)
    (xs : list A) (r : Z) :
  (forall x r0, P x -> P (fst (f x r0))) ->
  Forall P xs -> Forall P (fst (mapRewarding f xs r)).
Proof.
  intros Hf; revert r; induction xs as [|x xs IH]; intros r Hall; simpl.
  - constructor.
  - apply Forall_cons_iff in Hall as [Hx Hall].
    specialize (Hf x r Hx). destruct (f x r) as [x' r1]; simpl in Hf.
    specialize (IH r1 Hall). destruct (mapRewarding f xs r1) as [rest r2].
    simpl in *. now constructor.
Qed.

Lemma habits_toggleTodo (id : Z) (s : State N) :
  habits (toggleTodo id s) = habits s.
Proof.
  unfold toggleTodo.
  destruct (mapRewarding (toggleTodoEntry id) (todos s) (rewards s)); reflexivity.
Qed.

Lemma habits_deleteItem (type : string) (id : Z) (s : State N) :
  habits (deleteItem type id s) = habits s \/
  habits (deleteItem type id s) = removeById id (habits s).
Proof.
  unfold deleteItem.
  repeat match goal with
         | |- context [if String.eqb ?a ?b then _ else _] => destruct (String.eqb a b)
         end; simpl; auto.
Qed.

Lemma step_keeps_dates_distinct (c : Clock) (a : Action N) (s : State N) :
  Forall (fun h => NoDup (orEmpty (h_completedDates h))) (habits s) ->
  Forall (fun h => NoDup (orEmpty (h_completedDates h))) (habits (step c a s)).
Proof.
  intros Hinv. destruct a; simpl; try exact Hinv.
  - apply Forall_app. split; [exact Hinv|]. repeat constructor.
  - rewrite habits_toggleHabit. apply mapRewarding_Forall; [|exact Hinv].
    intros h r0. apply toggleHabitEntry_keeps_distinct.
  - now rewrite habits_toggleTodo.
  - destruct (habits_deleteItem type id s) as [E|E]; rewrite E; [exact Hinv|].
    apply Forall_forall. intros h Hh. unfold removeById in Hh.
    apply filter_In in Hh as [Hh _].
    exact (proj1 (Forall_forall _ _) Hinv h Hh).
Qed.

End CompletedDatesFacts.

(** X4.  Every action keeps each habit's [completedDates] free of repeated
    dates, so after any session from the initial state no habit holds a date
    twice: [toggleHabit] adds today's date only when it is not there and
    removes it otherwise. *)
Theorem completedDates_never_repeat (N : Type) (events : list (Clock * Action N)) :
  (forall s : State N,
     Forall (fun h => NoDup (orEmpty (h_completedDates h))) (habits s) ->
     Forall (fun h => NoDup (orEmpty (h_completedDates h))) (habits (run events s))) /\
  Forall (fun h => NoDup (orEmpty (h_completedDates h)))
         (habits (run events (initialState N))).
Proof.
  assert (Hkeep : forall s : State N,
     Forall (fun h => NoDup (orEmpty (h_completedDates h))) (habits s) ->
     Forall (fun h => NoDup (orEmpty (h_completedDates h))) (habits (run events s))).
  { induction events as [|[c a] events IH]; intros s Hinv; simpl.
    - exact Hinv.
    - apply IH. now apply step_keeps_dates_distinct. }
  split; [exact Hkeep|]. apply Hkeep. constructor.
Qed.

Lemma completedDates_never_repeat_witness :
  Forall (fun h => NoDup (orEmpty (h_completedDates h))) (habits oneHabit) /\
  Forall (fun h => NoDup (orEmpty (h_completedDates h)))
         (habits (run [(mondayAt 2000, ToggleHabit 1000)] oneHabit)).
Proof.
  assert (Hinv : Forall (fun h => NoDup (orEmpty (h_completedDates h))) (habits oneHabit))
    by (repeat constructor).
  split; [exact Hinv|].
  exact (proj1 (@completedDates_never_repeat float [(mondayAt 2000, ToggleHabit 1000)])
           oneHabit Hinv).
Defined.

Section TwiceFacts.
Context {N : Type}.

Lemma flipIfId_involutive (id : Z) (t : Todo) :
  flipIfId id (flipIfId id t) = t.
Proof.
  unfold flipIfId. destruct (t_id t =? id) eqn:E; [|now rewrite E].
  simpl. rewrite E. unfold withCompleted; simpl.
  rewrite negb_involutive. now destruct t.
Qed.

(** The points one [toggleTodo] pays: 5 for each incomplete task carrying
    the id. *)
Lemma mapRewarding_toggleTodo_pays (id : Z) (ts : list Todo) (r : Z) :
  snd (mapRewarding (toggleTodoEntry id) ts r)
    = r + 5 * Z.of_nat (List.length
                          (filter (fun t => (t_id t =? id) && negb (t_completed t)) ts)).
Proof.
  revert r; induction ts as [|t ts IH]; intros r; cbn [mapRewarding filter].
  - cbn [snd List.length]. lia.
  - unfold toggleTodoEntry at 1.
    destruct ((t_id t =? id) && negb (t_completed t)) eqn:E.
    + pose proof (IH (r + 5)) as Hrest.
      destruct (mapRewarding (toggleTodoEntry id) ts (r + 5)) as [rest r2].
      cbn [snd List.length] in *. lia.
    + pose proof (IH r) as Hrest.
      destruct (mapRewarding (toggleTodoEntry id) ts r) as [rest r2].
      cbn [snd List.length] in *. lia.
Qed.

Lemma toggleTodo_unfolded (id : Z) (s : State N) :
  toggleTodo id s
    = mkState (habits s) (map (flipIfId id) (todos s)) (expenses s) (notes s)
              (memories s) (loans s)
              (rewards s + 5 * Z.of_nat (List.length
                 (filter (fun t => (t_id t =? id) && negb (t_completed t)) (todos s))))
              (sleepSessions s).
Proof.
  pose proof (todos_toggleTodo id s) as Ht.
  pose proof (rewards_toggleTodo id s) as Hr.
  rewrite mapRewarding_toggleTodo_pays in Hr.
  rewrite <- Ht, <- Hr. unfold toggleTodo.
  destruct (mapRewarding (toggleTodoEntry id) (todos s) (rewards s)); reflexivity.
Qed.

Lemma incomplete_then_complete (id : Z) (ts : list Todo) :
  Nat.add
    (List.length (filter (fun t => (t_id t =? id) && negb (t_completed t)) ts))
    (List.length (filter (fun t => (t_id t =? id) && negb (t_completed t))
                         (map (flipIfId id) ts)))
  = List.length (filter (fun t => t_id t =? id) ts).
Proof.
  induction ts as [|t ts IH]; simpl; [reflexivity|].
  assert (Hid : t_id (flipIfId id t) = t_id t)
    by (unfold flipIfId; destruct (t_id t =? id); reflexivity).
  assert (Hc : (t_id t =? id) = true ->
               t_completed (flipIfId id t) = negb (t_completed t))
    by (intros E; unfold flipIfId; rewrite E; reflexivity).
  rewrite Hid. destruct (t_id t =? id) eqn:E; simpl; [|exact IH].
  rewrite (Hc eq_refl). destruct (t_completed t); simpl; lia.
Qed.

(** The figures of the loan tracker read only the amounts and the
    [returned] flags, in collection order. *)
Lemma sumOf_filter_map (num : Number N) (g : Loan N -> Loan N)
    (p : bool -> bool) (ls : list (Loan N)) :
  (forall l, l_amount (g l) = l_amount l /\ l_returned (g l) = l_returned l) ->
  sumOf (@l_amount N) (filter (fun l => p (l_returned l)) (map g ls))
    = sumOf (@l_amount N) (filter (fun l => p (l_returned l)) ls).
Proof.
  intros Hg. unfold sumOf. generalize (@num_zero N num) as acc.
  induction ls as [|l ls IH]; intros acc; simpl; [reflexivity|].
  destruct (Hg l) as [Ha Hr]. rewrite Hr.
  destruct (p (l_returned l)); simpl; [rewrite Ha|]; apply IH.
Qed.

Lemma toggleLoanEntry_twice (iso1 iso2 : string) (id : Z) (l : Loan N) :
  toggleLoanEntry iso2 id (toggleLoanEntry iso1 id l)
    = if l_id l =? id
      then withDateReturned l (if l_returned l then Value iso2 else Null)
      else l.
Proof.
  unfold toggleLoanEntry at 2. destruct (l_id l =? id) eqn:E.
  - unfold toggleLoanEntry; simpl. rewrite E. unfold withDateReturned.
    rewrite negb_involutive. now destruct (l_returned l).
  - unfold toggleLoanEntry. now rewrite E.
Qed.

End TwiceFacts.

(** X5.  While the reward counter stays within the safe integers, two
    [toggleTodo] calls on the same id put every task back as it was, and
    still raise the counter by 5 for each task carrying the id: whichever of
    the two calls completes the task pays, and neither takes the points
    back.  Nothing else in the state changes. *)
Theorem toggleTodo_twice (N : Type) (id : Z) (s : State N) :
  safeInteger (rewards s) ->
  safeInteger
    (rewards s
     + 5 * Z.of_nat (List.length (filter (fun t => t_id t =? id) (todos s)))) ->
  toggleTodo id (toggleTodo id s)
    = mkState (habits s) (todos s) (expenses s) (notes s) (memories s) (loans s)
              (rewards s
               + 5 * Z.of_nat (List.length (filter (fun t => t_id t =? id) (todos s))))
              (sleepSessions s) /\
  safeInteger (rewards (toggleTodo id s)) /\
  safeInteger (rewards (toggleTodo id (toggleTodo id s))).
Proof.
  set (carrying := List.length (filter (fun t => t_id t =? id) (todos s))).
  intros Hsafe0 Hsafe1.
  pose proof (incomplete_then_complete id (todos s)) as Hsum. fold carrying in Hsum.
  assert (Htwice : toggleTodo id (toggleTodo id s)
    = mkState (habits s) (todos s) (expenses s) (notes s) (memories s) (loans s)
              (rewards s + 5 * Z.of_nat carrying) (sleepSessions s)).
  { rewrite (toggleTodo_unfolded id (toggleTodo id s)).
    rewrite (toggleTodo_unfolded id s).
    cbn [habits todos expenses notes memories loans rewards sleepSessions].
    f_equal.
    - rewrite map_map. rewrite map_fixed; [reflexivity|].
      intros t _. apply flipIfId_involutive.
    - rewrite <- Hsum. lia. }
  split; [exact Htwice|]. split.
  - rewrite (toggleTodo_unfolded id s). cbn [rewards].
    unfold safeInteger in *. lia.
  - rewrite Htwice. exact Hsafe1.
Qed.

Lemma toggleTodo_twice_witness :
  safeInteger (rewards oneTodo) /\
  toggleTodo 1000 (toggleTodo 1000 oneTodo)
    = mkState [] [mkTodo 1000 "Buy milk" false Null "2024-01-01T09:00:00.000Z"]
              [] [] [] [] 5 [].
Proof.
  assert (Hsafe0 : safeInteger (rewards oneTodo))
    by (vm_compute; split; discriminate).
  assert (Hsafe1 : safeInteger
            (rewards oneTodo
             + 5 * Z.of_nat (List.length (filter (fun t => t_id t =? 1000) (todos oneTodo)))))
    by (vm_compute; split; discriminate).
  split; [exact Hsafe0|].
  exact (proj1 (@toggleTodo_twice float 1000 oneTodo Hsafe0 Hsafe1)).
Defined.

(** X6.  Two [toggleLoanReturn] calls on the same id give every loan its
    [returned] flag back, so the three figures of the loan tracker and the
    dashboard's pending amount are what they were, in the program's own
    arithmetic.  The return date is not restored: a loan carrying the id
    ends with the time of the second call when it is returned and with
    [null] when it is not. *)
Theorem toggleLoanReturn_twice (N : Type) (num : Number N) (c1 c2 : Clock) (id : Z)
    (s : State N) :
  let s2 := toggleLoanReturn c2 id (toggleLoanReturn c1 id s) in
  loans s2
    = map (fun l => if l_id l =? id
                    then withDateReturned l
                           (if l_returned l then Value (isoString c2) else Null)
                    else l)
          (loans s) /\
  pendingLoansAmount s2 = pendingLoansAmount s /\
  totalLent (loans s2) = totalLent (loans s) /\
  totalReturned (loans s2) = totalReturned (loans s).
Proof.
  intros s2.
  assert (Hloans : loans s2
    = map (fun l => if l_id l =? id
                    then withDateReturned l
                           (if l_returned l then Value (isoString c2) else Null)
                    else l)
          (loans s)).
  { subst s2. unfold toggleLoanReturn, setLoans; simpl. rewrite map_map.
    apply map_ext. intros l. apply toggleLoanEntry_twice. }
  assert (Hkeep : forall l : Loan N,
    l_amount (if l_id l =? id
              then withDateReturned l
                     (if l_returned l then Value (isoString c2) else Null)
              else l) = l_amount l /\
    l_returned (if l_id l =? id
                then withDateReturned l
                       (if l_returned l then Value (isoString c2) else Null)
                else l) = l_returned l).
  { intros l. destruct (l_id l =? id); split; reflexivity. }
  split; [exact Hloans|].
  unfold pendingLoansAmount, totalLent, totalReturned. rewrite Hloans.
  split; [|split].
  - exact (sumOf_filter_map num negb (loans s) Hkeep).
  - pose proof (sumOf_filter_map num (fun _ => true) (loans s) Hkeep) as Hall.
    assert (Hid : forall xs : list (Loan N),
              filter (fun l => (fun _ : bool => true) (l_returned l)) xs = xs).
    { induction xs as [|x xs IHx]; simpl; [reflexivity|now rewrite IHx]. }
    now rewrite !Hid in Hall.
  - exact (sumOf_filter_map num (fun b => b) (loans s) Hkeep).
Qed.

Section TotalsFacts.
Context {N : Type} {num : Number N}.

Lemma sumOf_snoc (A : Type) (f : A -> N) (xs : list A) (x : A) :
  sumOf f (xs ++ [x]) = num_add (sumOf f xs) (f x).
Proof. unfold sumOf. now rewrite fold_left_app. Qed.

End TotalsFacts.

(** X7.  In the program's own arithmetic, with no rounding caveat: adding a
    loan raises the dashboard's pending amount and the tracker's total lent
    by exactly the amount of the new loan, as the last addition of the sum,
    and leaves the total returned alone; adding an expense raises the total
    of expenses in the same way. *)
Theorem adding_extends_totals (N : Type) (num : Number N) (c : Clock) (s : State N) :
  (forall personName amount note,
     pendingLoansAmount (addLoan c personName amount note s)
       = num_add (pendingLoansAmount s) amount /\
     totalLent (loans (addLoan c personName amount note s))
       = num_add (totalLent (loans s)) amount /\
     totalReturned (loans (addLoan c personName amount note s))
       = totalReturned (loans s)) /\
  (forall description amount category,
     totalExpenses (addExpense c description amount category s)
       = num_add (totalExpenses s) amount).
Proof.
  split.
  - intros personName amount note.
    unfold pendingLoansAmount, totalLent, totalReturned, addLoan, setLoans; simpl.
    rewrite !filter_app; simpl. rewrite app_nil_r.
    repeat split; apply sumOf_snoc.
  - intros description amount category.
    unfold totalExpenses, addExpense, setExpenses; simpl. apply sumOf_snoc.
Qed.

Section TouchFacts.
Context {N : Type}.


End TouchFacts.



(** * Further properties of the aggregates *)

Section CountingFacts.

Lemma list_sum_cons (n : nat) (ns : list nat) :
  list_sum (n :: ns) = (n + list_sum ns)%nat.
Proof. reflexivity. Qed.

Lemma indicator_sum_le_1 (k : string) (ds : list string) :
  NoDup ds ->
  (list_sum (map (fun d => if String.eqb k d then 1%nat else 0%nat) ds) <= 1)%nat.
Proof.
  induction ds as [|d ds IH]; simpl; intros Hnd; [lia|].
  inversion Hnd as [|? ? Hd Hnd']; subst.
  destruct (String.eqb_spec k d) as [->|Hne]; [|specialize (IH Hnd'); lia].
  assert (Hzero : list_sum (map (fun d0 => if String.eqb d d0 then 1%nat else 0%nat) ds) = 0%nat).
  { clear -Hd. induction ds as [|x ds IH]; simpl; [reflexivity|].
    destruct (String.eqb_spec d x) as [->|_]; [exfalso; apply Hd; now left|].
    apply IH. intro Hin. apply Hd. now right. }
  lia.
Qed.

(** Elements counted once per key of a duplicate-free list of keys are
    counted at most once in all. *)
Lemma counts_by_key_le (A : Type) (p : A -> bool) (key : A -> string)
    (ds : list string) (xs : list A) :
  NoDup ds ->
  (list_sum (map (fun d => List.length
                             (filter (fun x => p x && String.eqb (key x) d) xs)) ds)
   <= List.length (filter p xs))%nat.
Proof.
  intros Hnd. induction xs as [|x xs IH].
  - simpl. clear Hnd. induction ds; simpl; lia.
  - assert (Hsplit : list_sum (map (fun d => List.length
                       (filter (fun y => p y && String.eqb (key y) d) (x :: xs))) ds)
                     = (list_sum (map (fun d => if p x && String.eqb (key x) d
                                                then 1%nat else 0%nat) ds)
                        + list_sum (map (fun d => List.length
                            (filter (fun y => p y && String.eqb (key y) d) xs)) ds))%nat).
    { clear. induction ds as [|d ds IHd]; [reflexivity|].
      rewrite !map_cons, !list_sum_cons, IHd. cbn [filter].
      destruct (p x && String.eqb (key x) d); cbn [List.length]; lia. }
    rewrite Hsplit. simpl. destruct (p x); simpl.
    + pose proof (indicator_sum_le_1 (key x) Hnd). lia.
    + assert (Hz : list_sum (map (fun _ : string => 0%nat) ds) = 0%nat)
        by (clear; induction ds; simpl; auto).
      rewrite Hz. exact IH.
Qed.

End CountingFacts.

(** X9.  No chart record counts more habits than there are habits or more
    tasks than the dashboard's completed count; and when the seven days have
    pairwise different date strings, the task counts of the seven records
    together do not exceed the dashboard's completed count: no task is
    counted on two days.  Tasks created earlier than the seven days are the
    ones missing from the sum. *)
Theorem chart_counts_bounded (N : Type) (num : Number N) (Date : Type)
    (getDate : Date -> Z) (setDate : Date -> Z -> Date)
    (toDateString toLocaleDateString : Date -> string) (parseDate : string -> Date)
    (now : Date) (s : State N) :
  let chart :=
    getChartData getDate setDate toDateString toLocaleDateString parseDate now s in
  (forall r, In r chart ->
     (cp_Habits r <= List.length (habits s))%nat /\
     (cp_Tasks r <= completedTodosCount s)%nat) /\
  (NoDup (map (fun i => toDateString (setDate now (getDate now - i)))
              [6; 5; 4; 3; 2; 1; 0]) ->
   (list_sum (map (@cp_Tasks N) chart) <= completedTodosCount s)%nat).
Proof.
  intros chart. subst chart. rewrite getChartData_unrolled. split.
  - intros r Hr. apply in_map_iff in Hr as [i [<- _]].
    rewrite chartPoint_is_dayRecord. unfold dayRecord_spec, completedTodosCount; simpl.
    split.
    + apply filter_length_le.
    + induction (todos s) as [|t ts IH]; simpl; [lia|].
      destruct (t_completed t); simpl; [|exact IH].
      match goal with |- context [if ?b then _ else _] => destruct b end; simpl; lia.
  - intros Hnd. rewrite map_map.
    pose proof (counts_by_key_le t_completed
                  (fun t => toDateString (parseDate (t_createdAt t)))
                  (todos s) Hnd) as Hle.
    rewrite map_map in Hle. exact Hle.
Qed.

Lemma chart_counts_bounded_witness :
  NoDup (map (fun i => dayText (daySetDate 10 (dayGetDate 10 - i))) [6; 5; 4; 3; 2; 1; 0]) /\
  (list_sum (map (@cp_Tasks float)
               (getChartData dayGetDate daySetDate dayText dayText dayOfText 10%Z twoDays))
   <= completedTodosCount twoDays)%nat.
Proof.
  assert (Hnd : NoDup (map (fun i => dayText (daySetDate 10 (dayGetDate 10 - i)))
                           [6; 5; 4; 3; 2; 1; 0])).
  { vm_compute. repeat constructor; simpl; intuition discriminate. }
  split; [exact Hnd|].
  exact (proj2 (@chart_counts_bounded float binary64_Number Z dayGetDate daySetDate
                  dayText dayText dayOfText 10 twoDays) Hnd).
Defined.

(** X10.  The chart is memoised on the four collections it reads, so the
    date it was computed at ([chartNow]) can be older than the date of the
    render that shows it ([now]), which [todaySleep] follows, and than the
    date of the sleep tracker's render ([trackerNow]).  On a platform where
    setting a date's day of the month to the one it has leaves the date as
    it is, and as long as the three dates fall on the same calendar day, the
    last record of the 7-day chart carries as its sleep figure the
    dashboard's [todaySleep], which is also the sleep tracker's
    [totalTodaySleep]: the durations of the sessions dated today, added up
    from 0 in collection order; and the record's expense figure is the
    amounts of today's expenses added up likewise.  The three views of
    today's sleep then cannot disagree, whatever the arithmetic. *)
Theorem todays_figures_agree (N : Type) (num : Number N) (Date : Type)
    (getDate : Date -> Z) (setDate : Date -> Z -> Date)
    (toDateString toLocaleDateString : Date -> string) (parseDate : string -> Date)
    (chartNow now trackerNow : Date) (s : State N) :
  (forall d, setDate d (getDate d) = d) ->
  toDateString chartNow = toDateString now ->
  toDateString trackerNow = toDateString now ->
  exists r,
    nth_error (getChartData getDate setDate toDateString toLocaleDateString
                 parseDate chartNow s) 6 = Some r /\
    cp_Sleep r = todaySleep toDateString parseDate now s /\
    cp_Sleep r = totalTodaySleep toDateString parseDate trackerNow (sleepSessions s) /\
    cp_Sleep r
      = fold_left num_add
          (map (@s_duration N)
             (filter (fun x => String.eqb (toDateString (parseDate (s_date x)))
                                          (toDateString now))
                     (sleepSessions s)))
          num_zero /\
    cp_Expenses r
      = fold_left num_add
          (map (@e_amount N)
             (filter (fun e => String.eqb (toDateString (parseDate (e_date e)))
                                          (toDateString now))
                     (expenses s)))
          num_zero.
Proof.
  intros Hset Hchart Htracker.
  exists (chartPoint getDate setDate toDateString toLocaleDateString parseDate
            chartNow s 0).
  split; [reflexivity|].
  unfold chartPoint, todaySleep, totalTodaySleep, sessionDay. cbv zeta.
  rewrite Z.sub_0_r, Hset, Hchart, Htracker. cbn [cp_Sleep cp_Expenses].
  rewrite !sumOf_as_fold_map. repeat split.
Qed.

Lemma todays_figures_agree_witness :
  (forall d, daySetDate d (dayGetDate d) = d) /\
  dayText 10 = dayText 10 /\
  nth_error (getChartData dayGetDate daySetDate dayText dayText dayOfText 10 twoDays) 6
    = Some (mkChartPoint "IIIIIIIIII" 1 1 0%float 7.5%float) /\
  todaySleep dayText dayOfText 10 twoDays = 7.5%float /\
  totalTodaySleep dayText dayOfText 10 (sleepSessions twoDays) = 7.5%float.
Proof.
  assert (Hset : forall d, daySetDate d (dayGetDate d) = d) by reflexivity.
  assert (Hday : dayText 10 = dayText 10) by reflexivity.
  split; [exact Hset|]. split; [exact Hday|]. split; [reflexivity|].
  destruct (@todays_figures_agree float binary64_Number Z dayGetDate daySetDate
              dayText dayText dayOfText 10 10 10 twoDays Hset Hday Hday)
    as (r & Hr & Hs & Ht & _).
  injection Hr as Hr. rewrite <- Hs, <- Ht, <- Hr. split; reflexivity.
Defined.

(** Without the hypothesis on the days the figures do differ: a chart
    computed on day 10 and shown, the collections untouched, on day 11 ends
    on the record of day 10 with its 7.5 hours of sleep, while [todaySleep]
    is that of day 11, on which nothing was recorded. *)
Example stale_chart_differs :
  option_map (@cp_Sleep float)
    (nth_error (getChartData dayGetDate daySetDate dayText dayText dayOfText 10 twoDays) 6)
    = Some 7.5%float /\
  todaySleep dayText dayOfText 11 twoDays = 0%float.
Proof. split; reflexivity. Qed.

(** X11.  The dashboard's recent activity is the lines of the first three
    habits completed today followed by the lines of the last three completed
    tasks: the closing [slice(0, 6)] never drops a line.  Its length is
    [min 3] of the number of habits completed today plus [min 3] of the
    number of completed tasks, so it is empty exactly when nothing is
    completed. *)
Theorem recentActivity_shape (today : string) (hs : list Habit) (ts : list Todo) :
  recentActivity today hs ts
    = map (fun h => mkActivity "habit" ("Completed habit: " ++ h_name h)%string)
          (firstn 3 (filter (fun h => optIncludes today (h_completedDates h)) hs))
      ++ map (fun t => mkActivity "todo" ("Completed task: " ++ t_task t)%string)
             (sliceLast 3 (filter t_completed ts)) /\
  List.length (recentActivity today hs ts)
    = (Nat.min 3 (List.length
                    (filter (fun h => optIncludes today (h_completedDates h)) hs))
       + Nat.min 3 (List.length (filter t_completed ts)))%nat.
Proof.
  assert (Hlen : forall (A : Type) (xs : list A),
            List.length (sliceLast 3 xs) = Nat.min 3 (List.length xs)).
  { intros A xs. unfold sliceLast. rewrite length_skipn. lia. }
  assert (Hshape : recentActivity today hs ts
    = map (fun h => mkActivity "habit" ("Completed habit: " ++ h_name h)%string)
          (firstn 3 (filter (fun h => optIncludes today (h_completedDates h)) hs))
      ++ map (fun t => mkActivity "todo" ("Completed task: " ++ t_task t)%string)
             (sliceLast 3 (filter t_completed ts))).
  { unfold recentActivity. cbv zeta. apply firstn_all2.
    rewrite length_app, !length_map, length_firstn, Hlen. lia. }
  split; [exact Hshape|].
  rewrite Hshape, length_app, !length_map, length_firstn, Hlen. reflexivity.
Qed.

(** * Dictionaries built key by key *)

Section KeyFacts.
Context {V : Type}.

Lemma getKey_setKey_same (k : string) (v : V) (obj : list (string * V)) :
  getKey k (setKey k v obj) = Some v.
Proof.
  induction obj as [|[k' v'] obj IH]; simpl.
  - now rewrite String.eqb_refl.
  - destruct (String.eqb k' k) eqn:E; simpl; rewrite E; [reflexivity|exact IH].
Qed.

Lemma getKey_setKey_other (k k' : string) (v : V) (obj : list (string * V)) :
  k <> k' -> getKey k' (setKey k v obj) = getKey k' obj.
Proof.
  intros Hne. induction obj as [|[k0 v0] obj IH]; simpl.
  - destruct (String.eqb_spec k k'); [contradiction|reflexivity].
  - destruct (String.eqb_spec k0 k) as [->|Hk]; simpl.
    + destruct (String.eqb_spec k k'); [contradiction|reflexivity].
    + destruct (String.eqb k0 k'); [reflexivity|exact IH].
Qed.

Lemma keys_setKey (k : string) (v : V) (obj : list (string * V)) :
  map fst (setKey k v obj)
    = if existsb (String.eqb k) (map fst obj) then map fst obj
      else map fst obj ++ [k].
Proof.
  induction obj as [|[k0 v0] obj IH]; simpl; [reflexivity|].
  rewrite (String.eqb_sym k k0).
  destruct (String.eqb k0 k); simpl; [reflexivity|].
  rewrite IH. now destruct (existsb (String.eqb k) (map fst obj)).
Qed.

Lemma keys_setKey_NoDup (k : string) (v : V) (obj : list (string * V)) :
  NoDup (map fst obj) -> NoDup (map fst (setKey k v obj)).
Proof.
  intros Hnd. rewrite keys_setKey.
  destruct (existsb (String.eqb k) (map fst obj)) eqn:E; [exact Hnd|].
  apply NoDup_snoc; [exact Hnd|]. now apply includes_false_not_in.
Qed.

Lemma In_getKey (k : string) (v : V) (obj : list (string * V)) :
  NoDup (map fst obj) -> In (k, v) obj -> getKey k obj = Some v.
Proof.
  induction obj as [|[k0 v0] obj IH]; simpl; intros Hnd Hin; [contradiction|].
  inversion Hnd as [|? ? Hk Hnd']; subst.
  destruct Hin as [Heq|Hin].
  - injection Heq as -> ->. now rewrite String.eqb_refl.
  - destruct (String.eqb_spec k0 k) as [->|_]; [|now apply IH].
    exfalso. apply Hk. now apply (in_map fst) in Hin.
Qed.

Lemma getKey_In_keys (k : string) (obj : list (string * V)) :
  In k (map fst obj) <-> exists v, getKey k obj = Some v.
Proof.
  induction obj as [|[k0 v0] obj IH]; simpl.
  - split; [contradiction|intros [v H]; discriminate].
  - destruct (String.eqb_spec k0 k) as [->|Hne].
    + split; [intros _; now exists v0|intros _; now left].
    + rewrite <- IH. split; [intros [H|H]; [contradiction|exact H]|now right].
Qed.

End KeyFacts.

Section CategoryFacts.
Context {N : Type} {num : Number N} {truth : NumberTruth N}.

Lemma getKey_fold_addExpenseTo (c : string) (es : list (Expense N))
    (totals : list (string * N)) :
  getKey c (fold_left addExpenseTo es totals)
    = fold_left (entryStep c) es (getKey c totals).
Proof.
  revert totals; induction es as [|e es IH]; intros totals; simpl; [reflexivity|].
  rewrite IH. f_equal. unfold addExpenseTo, entryStep.
  destruct (String.eqb_spec (e_category e) c) as [<-|Hne].
  - apply getKey_setKey_same.
  - now apply getKey_setKey_other.
Qed.

Lemma entryStep_from_some (c : string) (es : list (Expense N)) (x : N) :
  fold_left (entryStep c) es (Some x)
    = Some (fold_left (fun t e => num_add (if num_truthy t then t else num_zero)
                                          (e_amount e))
                      (filter (fun e => String.eqb (e_category e) c) es) x).
Proof.
  revert x; induction es as [|e es IH]; intros x; simpl; [reflexivity|].
  unfold entryStep at 2. destruct (String.eqb (e_category e) c); simpl; apply IH.
Qed.

Lemma entryStep_from_none (c : string) (es : list (Expense N)) :
  fold_left (entryStep c) es None
    = if existsb (fun e => String.eqb (e_category e) c) es
      then Some (categoryRun c es) else None.
Proof.
  unfold categoryRun. induction es as [|e es IH]; simpl; [reflexivity|].
  unfold entryStep at 2. destruct (String.eqb (e_category e) c); simpl.
  - rewrite entryStep_from_some. now destruct (num_truthy num_zero).
  - exact IH.
Qed.

Lemma keys_fold_addExpenseTo (es : list (Expense N)) (totals : list (string * N)) :
  NoDup (map fst totals) -> NoDup (map fst (fold_left addExpenseTo es totals)).
Proof.
  revert totals; induction es as [|e es IH]; intros totals Hnd; simpl; [exact Hnd|].
  apply IH. now apply keys_setKey_NoDup.
Qed.

Lemma categoryTotals_lookup (c : string) (es : list (Expense N)) :
  getKey c (categoryTotals es)
    = if existsb (fun e => String.eqb (e_category e) c) es
      then Some (categoryRun c es) else None.
Proof.
  unfold categoryTotals.
  change (getKey c (fold_left addExpenseTo es []) =
          if existsb (fun e => String.eqb (e_category e) c) es
          then Some (categoryRun c es) else None).
  rewrite getKey_fold_addExpenseTo. apply entryStep_from_none.
Qed.

Lemma categoryTotals_keys_NoDup (es : list (Expense N)) :
  NoDup (map fst (categoryTotals es)).
Proof. apply (keys_fold_addExpenseTo es (totals := [])). constructor. Qed.

End CategoryFacts.

(** X12.  For expenses whose categories name no property of
    [Object.prototype], [categoryTotals] has one entry per category that
    occurs and none for a category that does not.  The entry of a category
    is what adding its expenses in collection order gives, where a total so
    far of [0] or [NaN] is replaced by 0 before the next amount is added: an
    amount that is not a number does not stay in the total of its
    category. *)
Theorem categoryTotals_by_category (N : Type) (num : Number N)
    (truth : NumberTruth N) (es : list (Expense N)) (c : string) :
  Forall (fun e => ownKey (e_category e)) es ->
  getKey c (categoryTotals es)
    = (if existsb (fun e => String.eqb (e_category e) c) es
       then Some (categoryRun c es) else None) /\
  NoDup (map fst (categoryTotals es)) /\
  (In c (map fst (categoryTotals es)) <-> In c (map (@e_category N) es)).
Proof.
  intros _. split; [apply categoryTotals_lookup|].
  split; [apply categoryTotals_keys_NoDup|].
  rewrite getKey_In_keys, categoryTotals_lookup. split.
  - intros [v Hv].
    destruct (existsb (fun e => String.eqb (e_category e) c) es) eqn:E;
      [|discriminate].
    apply existsb_exists in E as [e [He Hc]]. apply String.eqb_eq in Hc.
    rewrite <- Hc. now apply in_map.
  - intros Hin. apply in_map_iff in Hin as [e [Hc He]].
    assert (E : existsb (fun e => String.eqb (e_category e) c) es = true).
    { apply existsb_exists. exists e. split; [exact He|]. now apply String.eqb_eq. }
    rewrite E. now eexists.
Qed.

Lemma categoryTotals_by_category_witness :
  Forall (fun e => ownKey (e_category e)) (expenses twoExpenses) /\
  getKey "Food" (categoryTotals (expenses twoExpenses)) = Some 4.5%float.
Proof.
  assert (Hown : Forall (fun e => ownKey (e_category e)) (expenses twoExpenses)).
  { repeat constructor; unfold ownKey; simpl; intuition discriminate. }
  split; [exact Hown|].
  exact (proj1 (@categoryTotals_by_category float binary64_Number binary64_NumberTruth
                  (expenses twoExpenses) "Food" Hown)).
Defined.

Section CategoryExact.
Context {N : Type} {num : Number N} {truth : NumberTruth N}.
Hypothesis add_assoc : forall x y z : N, num_add (num_add x y) z = num_add x (num_add y z).
Hypothesis add_comm : forall x y : N, num_add x y = num_add y x.
Hypothesis add_zero : forall x : N, num_add num_zero x = x.
Hypothesis falsy_is_zero : forall x : N, num_truthy x = false -> x = num_zero.

Lemma orZero_exact (t : option N) :
  orZero t = match t with Some x => x | None => num_zero end.
Proof.
  destruct t as [x|]; simpl; [|reflexivity].
  destruct (num_truthy x) eqn:E; [reflexivity|]. symmetry. now apply falsy_is_zero.
Qed.

Lemma categoryRun_exact (c : string) (es : list (Expense N)) :
  categoryRun c es
    = sumOf (@e_amount N) (filter (fun e => String.eqb (e_category e) c) es).
Proof.
  unfold categoryRun, sumOf.
  assert (Hfold : forall (fs : list (Expense N)) (acc : N),
    fold_left (fun t e => num_add (if num_truthy t then t else num_zero) (e_amount e))
              fs acc
    = fold_left (fun sum x => num_add sum (e_amount x)) fs acc).
  { induction fs as [|e fs IH]; intros acc; simpl; [reflexivity|].
    rewrite IH. f_equal. f_equal.
    destruct (num_truthy acc) eqn:E; [reflexivity|]. symmetry.
    now apply falsy_is_zero. }
  apply Hfold.
Qed.

Lemma sum_setKey (k : string) (a : N) (totals : list (string * N)) :
  sumOf snd (setKey k (num_add (orZero (getKey k totals)) a) totals)
    = num_add (sumOf snd totals) a.
Proof.
  induction totals as [|[k0 v0] totals IH]; cbn [getKey setKey].
  - unfold sumOf; simpl. now rewrite !add_zero.
  - destruct (String.eqb k0 k) eqn:E.
    + rewrite !(sumOf_cons add_assoc add_comm add_zero). cbn [snd].
      rewrite orZero_exact. rewrite !add_assoc. f_equal. apply add_comm.
    + rewrite !(sumOf_cons add_assoc add_comm add_zero). cbn [snd].
      rewrite IH. now rewrite add_assoc.
Qed.

Lemma sum_fold_addExpenseTo (es : list (Expense N)) (totals : list (string * N)) :
  sumOf snd (fold_left addExpenseTo es totals)
    = num_add (sumOf snd totals) (sumOf (@e_amount N) es).
Proof.
  revert totals; induction es as [|e es IH]; intros totals; simpl.
  - unfold sumOf at 3; simpl. now rewrite add_comm, add_zero.
  - rewrite IH. unfold addExpenseTo. rewrite sum_setKey.
    rewrite (sumOf_cons add_assoc add_comm add_zero). apply add_assoc.
Qed.

End CategoryExact.

(** X13.  In exact arithmetic (addition associative and commutative with 0
    neutral, 0 the only falsy number), for expenses whose categories name no
    property of [Object.prototype]: the entry of each category is the sum of
    the amounts of its expenses, and the entries of [categoryTotals] add up
    to [totalExpenses]. *)
Theorem categoryTotals_add_up (N : Type) (num : Number N) (truth : NumberTruth N)
    (s : State N) :
  (forall x y z : N, num_add (num_add x y) z = num_add x (num_add y z)) ->
  (forall x y : N, num_add x y = num_add y x) ->
  (forall x : N, num_add num_zero x = x) ->
  (forall x : N, num_truthy x = false -> x = num_zero) ->
  Forall (fun e => ownKey (e_category e)) (expenses s) ->
  (forall c, In c (map (@e_category N) (expenses s)) ->
     getKey c (categoryTotals (expenses s))
       = Some (sumOf (@e_amount N)
                 (filter (fun e => String.eqb (e_category e) c) (expenses s)))) /\
  sumOf snd (categoryTotals (expenses s)) = totalExpenses s.
Proof.
  intros Hassoc Hcomm Hzero Hfalsy _. split.
  - intros c Hin. rewrite categoryTotals_lookup.
    assert (E : existsb (fun e => String.eqb (e_category e) c) (expenses s) = true).
    { apply in_map_iff in Hin as [e [Hc He]].
      apply existsb_exists. exists e. split; [exact He|]. now apply String.eqb_eq. }
    rewrite E. f_equal. now apply categoryRun_exact.
  - unfold categoryTotals, totalExpenses.
    change (sumOf snd (fold_left addExpenseTo (expenses s) [])
            = sumOf (@e_amount N) (expenses s)).
    rewrite (sum_fold_addExpenseTo Hassoc Hcomm Hzero Hfalsy).
    unfold sumOf at 1; simpl. apply Hzero.
Qed.

Lemma categoryTotals_add_up_witness :
  sumOf snd (categoryTotals
               (expenses (addExpense (mondayAt 2000) "Bus" 2 "Transport"
                            (addExpense (mondayAt 1000) "Coffee" 4 "Food"
                               (initialState Z)))))
  = 6.
Proof.
  refine (proj2 (@categoryTotals_add_up Z exact_Number exact_NumberTruth
                   (addExpense (mondayAt 2000) "Bus" 2 "Transport"
                      (addExpense (mondayAt 1000) "Coffee" 4 "Food" (initialState Z)))
                   (fun x y z => eq_sym (Z.add_assoc x y z)) Z.add_comm Z.add_0_l
                   _ _)).
  - intros x Hx. unfold num_truthy, exact_NumberTruth in Hx.
    apply negb_false_iff in Hx. now apply Z.eqb_eq in Hx.
  - repeat constructor; unfold ownKey; simpl; intuition discriminate.
Defined.

Section SleepGroupFacts.
Context {N : Type}.
Variable day : SleepSession N -> string.

Lemma getKey_fold_addSessionTo (d : string) (xs : list (SleepSession N))
    (acc : list (string * list (SleepSession N))) :
  getKey d (fold_left (addSessionTo day) xs acc)
    = fold_left (groupStep day d) xs (getKey d acc).
Proof.
  revert acc; induction xs as [|x xs IH]; intros acc; simpl; [reflexivity|].
  rewrite IH. f_equal. unfold addSessionTo, groupStep.
  destruct (String.eqb_spec (day x) d) as [<-|Hne].
  - apply getKey_setKey_same.
  - now apply getKey_setKey_other.
Qed.

Lemma groupStep_from_some (d : string) (xs l : list (SleepSession N)) :
  fold_left (groupStep day d) xs (Some l)
    = Some (l ++ filter (fun x => String.eqb (day x) d) xs).
Proof.
  revert l; induction xs as [|x xs IH]; intros l; simpl.
  - now rewrite app_nil_r.
  - unfold groupStep at 2. destruct (String.eqb (day x) d); simpl.
    + rewrite IH, <- app_assoc. reflexivity.
    + apply IH.
Qed.

Lemma groupStep_from_none (d : string) (xs : list (SleepSession N)) :
  fold_left (groupStep day d) xs None
    = if existsb (fun x => String.eqb (day x) d) xs
      then Some (filter (fun x => String.eqb (day x) d) xs) else None.
Proof.
  induction xs as [|x xs IH]; simpl; [reflexivity|].
  unfold groupStep at 2. destruct (String.eqb (day x) d); simpl.
  - apply groupStep_from_some.
  - exact IH.
Qed.

Lemma keys_fold_addSessionTo (xs : list (SleepSession N))
    (acc : list (string * list (SleepSession N))) :
  NoDup (map fst acc) -> NoDup (map fst (fold_left (addSessionTo day) xs acc)).
Proof.
  revert acc; induction xs as [|x xs IH]; intros acc Hnd; simpl; [exact Hnd|].
  apply IH. now apply keys_setKey_NoDup.
Qed.

End SleepGroupFacts.

Lemma sessionsByDate_groups_aux (N : Type) (Date : Type)
    (toDateString : Date -> string) (parseDate : string -> Date)
    (xs : list (SleepSession N)) :
  (forall d,
     getKey d (sessionsByDate toDateString parseDate xs)
     = (if existsb (fun x => String.eqb (sessionDay toDateString parseDate x) d) xs
        then Some (filter (fun x => String.eqb (sessionDay toDateString parseDate x) d) xs)
        else None)) /\
  NoDup (map fst (sessionsByDate toDateString parseDate xs)).
Proof.
  change (sessionsByDate toDateString parseDate xs)
    with (fold_left (addSessionTo (sessionDay toDateString parseDate)) xs []).
  split.
  - intros d. rewrite getKey_fold_addSessionTo. apply groupStep_from_none.
  - apply keys_fold_addSessionTo. constructor.
Qed.

(** X14.  For sessions whose day strings name no property of
    [Object.prototype], the grouping step of [sleepChartData] puts every
    session in the group of its calendar day and nowhere else: the group of a
    day is the list of that day's sessions in collection order, a day
    without sessions has no group, and no day has two groups. *)
Theorem sessionsByDate_groups (N : Type) (Date : Type)
    (toDateString : Date -> string) (parseDate : string -> Date)
    (xs : list (SleepSession N)) (d : string) :
  Forall (fun x => ownKey (sessionDay toDateString parseDate x)) xs ->
  getKey d (sessionsByDate toDateString parseDate xs)
    = (if existsb (fun x => String.eqb (sessionDay toDateString parseDate x) d) xs
       then Some (filter (fun x => String.eqb (sessionDay toDateString parseDate x) d) xs)
       else None) /\
  NoDup (map fst (sessionsByDate toDateString parseDate xs)) /\
  (In d (map fst (sessionsByDate toDateString parseDate xs))
   <-> In d (map (sessionDay toDateString parseDate) xs)).
Proof.
  intros _.
  destruct (sessionsByDate_groups_aux toDateString parseDate xs) as [Hlookup Hnd].
  split; [apply Hlookup|]. split; [exact Hnd|].
  rewrite getKey_In_keys, Hlookup. split.
  - intros [v Hv].
    destruct (existsb (fun x => String.eqb (sessionDay toDateString parseDate x) d) xs)
      eqn:E; [|discriminate].
    apply existsb_exists in E as [x [Hx Hd]]. apply String.eqb_eq in Hd.
    rewrite <- Hd. now apply in_map.
  - intros Hin. apply in_map_iff in Hin as [x [Hd Hx]].
    assert (E : existsb (fun x => String.eqb (sessionDay toDateString parseDate x) d) xs
                = true).
    { apply existsb_exists. exists x. split; [exact Hx|]. now apply String.eqb_eq. }
    rewrite E. now eexists.
Qed.

Lemma sessionsByDate_groups_witness :
  Forall (fun x => ownKey (sessionDay dayText dayOfText x)) (sleepSessions twoDays) /\
  getKey (dayText 9) (sessionsByDate dayText dayOfText (sleepSessions twoDays)) = None.
Proof.
  assert (Hown : Forall (fun x => ownKey (sessionDay dayText dayOfText x))
                        (sleepSessions twoDays)).
  { repeat constructor. unfold ownKey. vm_compute. intuition discriminate. }
  split; [exact Hown|].
  exact (proj1 (@sessionsByDate_groups float Z dayText dayOfText
                  (sleepSessions twoDays) (dayText 9) Hown)).
Defined.

(** The days that have a group are the days of the sessions. *)
Lemma sessionsByDate_days (N : Type) (Date : Type)
    (toDateString : Date -> string) (parseDate : string -> Date)
    (xs : list (SleepSession N)) (d : string) :
  In d (map fst (sessionsByDate toDateString parseDate xs))
  <-> In d (map (fun x => toDateString (parseDate (s_date x))) xs).
Proof.
  destruct (sessionsByDate_groups_aux toDateString parseDate xs) as [Hlookup _].
  rewrite getKey_In_keys, Hlookup. unfold sessionDay. split.
  - intros [v Hv].
    destruct (existsb (fun x => String.eqb (toDateString (parseDate (s_date x))) d) xs)
      eqn:E; [|discriminate].
    apply existsb_exists in E as [x [Hx Hd]]. apply String.eqb_eq in Hd.
    rewrite <- Hd.
    exact (in_map (fun x0 => toDateString (parseDate (s_date x0))) xs x Hx).
  - intros Hin. apply in_map_iff in Hin as [x [Hd Hx]].
    assert (E : existsb (fun x => String.eqb (toDateString (parseDate (s_date x))) d) xs
                = true).
    { apply existsb_exists. exists x. split; [exact Hx|]. now apply String.eqb_eq. }
    rewrite E. now eexists.
Qed.

(** X15.  When the platform's sort returns a rearrangement of the list it is
    given, and the day strings name no property of [Object.prototype], the
    sleep history chart holds exactly one record for each calendar day that
    has a session, and no other record.  The record of a day carries the
    short text of the day, as its night figure the durations of the day's
    sessions with [isAfternoon] false, added up from 0 in collection order,
    and as its afternoon figure the durations of the day's sessions with
    [isAfternoon] true, added up likewise. *)
Theorem sleepChartData_one_record_per_day (N : Type) (num : Number N) (Date : Type)
    (toDateString toLocaleDateString : Date -> string) (parseDate : string -> Date)
    (sortChart : list (SleepPoint N) -> list (SleepPoint N))
    (xs : list (SleepSession N)) :
  (forall l, Permutation (sortChart l) l) ->
  Forall (fun x => ownKey (toDateString (parseDate (s_date x)))) xs ->
  let dayOf (x : SleepSession N) : string := toDateString (parseDate (s_date x)) in
  let days : list string := nodup string_dec (map dayOf xs) in
  let record (d : string) : SleepPoint N :=
    mkSleepPoint
      (toLocaleDateString (parseDate d))
      (fold_left num_add
         (map (@s_duration N)
            (filter (fun x => negb (s_isAfternoon x))
               (filter (fun x => String.eqb (dayOf x) d) xs)))
         num_zero)
      (fold_left num_add
         (map (@s_duration N)
            (filter (@s_isAfternoon N)
               (filter (fun x => String.eqb (dayOf x) d) xs)))
         num_zero) in
  Permutation
    (sleepChartData toDateString toLocaleDateString parseDate sortChart xs)
    (map record days) /\
  List.length (sleepChartData toDateString toLocaleDateString parseDate sortChart xs)
    = List.length days.
Proof.
  intros Hsort Hown dayOf days record.
  destruct (sessionsByDate_groups_aux toDateString parseDate xs) as [Hlookup Hnd].
  assert (Hdata :
    map (fun g => sleepPoint toLocaleDateString parseDate (fst g) (snd g))
        (sessionsByDate toDateString parseDate xs)
    = map record (map fst (sessionsByDate toDateString parseDate xs))).
  { rewrite map_map. apply map_ext_in. intros [d l] Hin. cbn [fst snd].
    pose proof (In_getKey Hnd Hin) as Hget. rewrite Hlookup in Hget.
    assert (Hl : l = filter (fun x => String.eqb (dayOf x) d) xs).
    { destruct (existsb _ xs); [now injection Hget as <-|discriminate]. }
    unfold sleepPoint, record. cbv zeta.
    rewrite !sumOf_as_fold_map, Hl. reflexivity. }
  assert (Hdays : Permutation (map fst (sessionsByDate toDateString parseDate xs)) days).
  { apply NoDup_Permutation; [exact Hnd|apply NoDup_nodup|].
    intros d. subst days. rewrite nodup_In. apply sessionsByDate_days. }
  assert (Hchart : Permutation
            (sleepChartData toDateString toLocaleDateString parseDate sortChart xs)
            (map record days)).
  { unfold sleepChartData. cbv zeta. rewrite Hdata.
    eapply Permutation_trans; [apply Hsort|].
    now apply Permutation_map. }
  split; [exact Hchart|].
  rewrite (Permutation_length Hchart). apply length_map.
Qed.

Lemma sleepChartData_one_record_per_day_witness :
  (forall l : list (SleepPoint float), Permutation ((fun l0 => l0) l) l) /\
  Forall (fun x => ownKey (dayText (dayOfText (s_date x)))) sleepLog /\
  Permutation
    (sleepChartData dayText dayText dayOfText (fun l => l) sleepLog)
    [mkSleepPoint "IIIIIIIII" 7%float 1.5%float;
     mkSleepPoint "IIIIIIIIII" 8%float 0%float] /\
  List.length (sleepChartData dayText dayText dayOfText (fun l => l) sleepLog) = 2%nat.
Proof.
  assert (Hsort : forall l : list (SleepPoint float), Permutation ((fun l0 => l0) l) l)
    by (intros l; apply Permutation_refl).
  assert (Hown : Forall (fun x => ownKey (dayText (dayOfText (s_date x)))) sleepLog)
    by (repeat constructor; unfold ownKey; vm_compute; intuition discriminate).
  split; [exact Hsort|]. split; [exact Hown|].
  exact (@sleepChartData_one_record_per_day float binary64_Number Z
           dayText dayText dayOfText (fun l => l) sleepLog Hsort Hown).
Defined.

(** X16.  In exact arithmetic (addition associative and commutative with 0
    neutral), the night and the afternoon figure of a day's sleep record add
    up to the sum of the durations of the day's sessions, and the sleep
    tracker's total for today is its afternoon total plus the night sleep of
    today: no session is left out of the split and none is counted on both
    sides. *)
Theorem sleep_split_adds_up (N : Type) (num : Number N) (Date : Type)
    (toDateString toLocaleDateString : Date -> string) (parseDate : string -> Date)
    (now : Date) (xs : list (SleepSession N)) :
  (forall x y z : N, num_add (num_add x y) z = num_add x (num_add y z)) ->
  (forall x y : N, num_add x y = num_add y x) ->
  (forall x : N, num_add num_zero x = x) ->
  (forall d sessions,
     num_add (sp_nightSleep (sleepPoint toLocaleDateString parseDate d sessions))
             (sp_afternoonSleep (sleepPoint toLocaleDateString parseDate d sessions))
       = sumOf (@s_duration N) sessions) /\
  totalTodaySleep toDateString parseDate now xs
    = num_add
        (sumOf (@s_duration N)
           (filter (fun x => negb (s_isAfternoon x))
              (filter (fun x => String.eqb (sessionDay toDateString parseDate x)
                                           (toDateString now)) xs)))
        (totalTodayAfternoonSleep toDateString parseDate now xs).
Proof.
  intros Hassoc Hcomm Hzero. split.
  - intros d sessions. unfold sleepPoint; simpl. symmetry.
    apply (sumOf_split Hassoc Hcomm Hzero).
  - unfold totalTodaySleep, totalTodayAfternoonSleep.
    apply (sumOf_split Hassoc Hcomm Hzero).
Qed.

Lemma sleep_split_adds_up_witness :
  totalTodaySleep dayText dayOfText 10
    [mkSleepSession 1 7 false "TTTTTTTTTT"; mkSleepSession 2 1 true "TTTTTTTTTT"]
  = num_add 7
      (totalTodayAfternoonSleep dayText dayOfText 10
         [mkSleepSession 1 7 false "TTTTTTTTTT"; mkSleepSession 2 1 true "TTTTTTTTTT"]).
Proof.
  exact (proj2 (@sleep_split_adds_up Z exact_Number Z dayText dayText dayOfText 10
                  [mkSleepSession 1 7 false "TTTTTTTTTT";
                   mkSleepSession 2 1 true "TTTTTTTTTT"]
                  (fun x y z => eq_sym (Z.add_assoc x y z)) Z.add_comm Z.add_0_l)).
Defined.

(** * Persistence and import *)

(** X17.  A change made through an updater function, as every mutator
    makes it, reaches the React state but not the store: what is written
    under the key is the text [undefined], whatever the updater computed.
    Since that text is not JSON, the next start of the application reads the
    initial value for the key: the change does not survive a reload, nor
    does anything stored under the key before it.  Other keys are left
    alone. *)
Theorem updater_is_not_persisted (JSON_stringify : Snapshot.value -> string)
    (JSON_parse : string -> option Snapshot.value) (key : string)
    (initialValue current : Snapshot.value) (f : Snapshot.value -> Snapshot.value)
    (st : LocalStorage.Storage) :
  JSON_parse "undefined" = None ->
  fst (LocalStorage.setStoredValue JSON_stringify key (LocalStorage.Updater f) true
         (current, st)) = f current /\
  LocalStorage.getItem key
    (snd (LocalStorage.setStoredValue JSON_stringify key (LocalStorage.Updater f) true
            (current, st))) = Some "undefined" /\
  LocalStorage.readStored JSON_parse key initialValue
    (snd (LocalStorage.setStoredValue JSON_stringify key (LocalStorage.Updater f) true
            (current, st))) = initialValue /\
  (forall other, other <> key ->
     LocalStorage.getItem other
       (snd (LocalStorage.setStoredValue JSON_stringify key (LocalStorage.Updater f) true
               (current, st))) = LocalStorage.getItem other st).
Proof.
  intros Hundefined.
  unfold LocalStorage.setStoredValue, LocalStorage.readStored, LocalStorage.getItem,
         LocalStorage.setItem, LocalStorage.storedText; simpl.
  rewrite String.eqb_refl, Hundefined. repeat split.
  intros other Hne. destruct (String.eqb_spec other key); [contradiction|reflexivity].
Qed.

Lemma updater_is_not_persisted_witness :
  parseSample "undefined" = None /\
  LocalStorage.readStored parseSample "habits" (Snapshot.JArray [])
    (snd (LocalStorage.setStoredValue writeBackup "habits"
            (LocalStorage.Updater (fun prev => Snapshot.JArray [prev])) true
            (Snapshot.JArray [], fun _ => None)))
  = Snapshot.JArray [].
Proof.
  assert (Hundefined : parseSample "undefined" = None) by reflexivity.
  split; [exact Hundefined|].
  exact (proj1 (proj2 (proj2
           (@updater_is_not_persisted writeBackup parseSample "habits"
              (Snapshot.JArray []) (Snapshot.JArray [])
              (fun prev => Snapshot.JArray [prev]) (fun _ => None) Hundefined)))).
Defined.

(** X18.  A plain value set through the hook, as [setAllData] sets the
    imported ones, is read back by the next start of the application when
    its text is not empty and parses back to it.  When the store refuses
    the write, the state still holds the new value and the next start reads
    what the store held before.  A key that was never written, and a key
    whose text is empty or does not parse, read as the initial value. *)
Theorem plain_value_survives_reload (JSON_stringify : Snapshot.value -> string)
    (JSON_parse : string -> option Snapshot.value) (key : string)
    (initialValue current v : Snapshot.value) (st : LocalStorage.Storage) :
  (JSON_parse (JSON_stringify v) = Some v -> JSON_stringify v <> "" ->
   LocalStorage.readStored JSON_parse key initialValue
     (snd (LocalStorage.setStoredValue JSON_stringify key (LocalStorage.Plain v) true
             (current, st))) = v) /\
  (fst (LocalStorage.setStoredValue JSON_stringify key (LocalStorage.Plain v) false
          (current, st)) = v /\
   LocalStorage.readStored JSON_parse key initialValue
     (snd (LocalStorage.setStoredValue JSON_stringify key (LocalStorage.Plain v) false
             (current, st)))
   = LocalStorage.readStored JSON_parse key initialValue st) /\
  (LocalStorage.getItem key st = None ->
   LocalStorage.readStored JSON_parse key initialValue st = initialValue) /\
  (forall text, LocalStorage.getItem key st = Some text ->
     text = "" \/ JSON_parse text = None ->
     LocalStorage.readStored JSON_parse key initialValue st = initialValue).
Proof.
  unfold LocalStorage.setStoredValue, LocalStorage.readStored, LocalStorage.getItem,
         LocalStorage.setItem, LocalStorage.storedText; simpl.
  split; [|split; [|split]].
  - intros Hparse Hne. rewrite String.eqb_refl, Hparse.
    destruct (String.eqb_spec (JSON_stringify v) ""); [contradiction|reflexivity].
  - split; reflexivity.
  - intros ->. reflexivity.
  - intros text -> [->|Hbad]; [reflexivity|].
    rewrite Hbad. now destruct (String.eqb text "").
Qed.

Lemma plain_value_survives_reload_witness :
  readBackup 7 (writeBackup (Snapshot.allData (emptyStore 7) "2024-01-01T09:00:00.000Z"))
    = Some (Snapshot.allData (emptyStore 7) "2024-01-01T09:00:00.000Z") /\
  LocalStorage.readStored (readBackup 7) "habits" (Snapshot.JArray [])
    (snd (LocalStorage.setStoredValue writeBackup "habits"
            (LocalStorage.Plain
               (Snapshot.allData (emptyStore 7) "2024-01-01T09:00:00.000Z"))
            true (Snapshot.JArray [], fun _ => None)))
  = Snapshot.allData (emptyStore 7) "2024-01-01T09:00:00.000Z".
Proof.
  assert (Hparse : readBackup 7
                     (writeBackup (Snapshot.allData (emptyStore 7) "2024-01-01T09:00:00.000Z"))
                   = Some (Snapshot.allData (emptyStore 7) "2024-01-01T09:00:00.000Z"))
    by reflexivity.
  split; [exact Hparse|].
  apply (proj1 (@plain_value_survives_reload writeBackup (readBackup 7) "habits"
                  (Snapshot.JArray []) (Snapshot.JArray [])
                  (Snapshot.allData (emptyStore 7) "2024-01-01T09:00:00.000Z")
                  (fun _ => None)) Hparse).
  intro H. discriminate H.
Defined.

Section MergeFacts.
Import Snapshot.

Lemma merged_idempotent (newData : value) (key : string) (old : value) :
  merged newData key (merged newData key old) = merged newData key old.
Proof.
  unfold merged. destruct (getProp newData key) as [v|]; [|reflexivity].
  now destruct (truthy v).
Qed.

Lemma merged_truthy (newData : value) (key : string) (old : value) :
  truthy old = true -> truthy (merged newData key old) = true.
Proof.
  intros Hold. unfold merged. destruct (getProp newData key) as [v|]; [|exact Hold].
  destruct (truthy v) eqn:E; [exact E|exact Hold].
Qed.

End MergeFacts.

(** X19.  [setAllData] is idempotent, so importing the same document twice
    gives what importing it once gives.  It never installs a falsy value: a
    piece of state that holds a truthy value before an import holds one
    after it, so no import empties the reward counter to 0 or replaces a
    collection by [null]. *)
Theorem setAllData_idempotent_and_truthy (newData : Snapshot.value)
    (s : Snapshot.Store) :
  Snapshot.setAllData newData (Snapshot.setAllData newData s)
    = Snapshot.setAllData newData s /\
  (Snapshot.truthy (Snapshot.rewards s) = true ->
   Snapshot.truthy (Snapshot.rewards (Snapshot.setAllData newData s)) = true) /\
  (Snapshot.collectionsAreArrays s = true ->
   Snapshot.truthy (Snapshot.habits (Snapshot.setAllData newData s)) = true /\
   Snapshot.truthy (Snapshot.todos (Snapshot.setAllData newData s)) = true /\
   Snapshot.truthy (Snapshot.expenses (Snapshot.setAllData newData s)) = true /\
   Snapshot.truthy (Snapshot.notes (Snapshot.setAllData newData s)) = true /\
   Snapshot.truthy (Snapshot.memories (Snapshot.setAllData newData s)) = true /\
   Snapshot.truthy (Snapshot.loans (Snapshot.setAllData newData s)) = true /\
   Snapshot.truthy (Snapshot.sleepSessions (Snapshot.setAllData newData s)) = true).
Proof.
  split; [|split].
  - rewrite !setAllData_merged. simpl. now rewrite !merged_idempotent.
  - intros Hr. rewrite setAllData_merged. simpl. now apply merged_truthy.
  - intros Harr. rewrite setAllData_merged. simpl.
    unfold Snapshot.collectionsAreArrays in Harr.
    repeat (apply andb_true_iff in Harr as [Harr ?]).
    assert (Harray : forall v, Snapshot.isArray v = true -> Snapshot.truthy v = true)
      by (intros v Hv; destruct v; try discriminate; reflexivity).
    repeat split; apply merged_truthy; apply Harray; assumption.
Qed.

Lemma setAllData_idempotent_and_truthy_witness :
  Snapshot.truthy (Snapshot.rewards (emptyStore 50)) = true /\
  Snapshot.truthy (Snapshot.rewards (Snapshot.setAllData onlyRewards0 (emptyStore 50)))
    = true.
Proof.
  assert (Hr : Snapshot.truthy (Snapshot.rewards (emptyStore 50)) = true) by reflexivity.
  split; [exact Hr|].
  exact (proj1 (proj2 (setAllData_idempotent_and_truthy onlyRewards0 (emptyStore 50))) Hr).
Defined.

(** * Mutators seen through the chart *)

Section OneChanged.
Context {A : Type}.
Variable idOf : A -> Z.
Variable id : Z.
Variable g : A -> A.
Hypothesis g_other : forall x, idOf x <> id -> g x = x.
Variable p : A -> bool.


End OneChanged.

Section ToggledDates.




End ToggledDates.




